(** * Course-sync endpoint of the UNESCO site (courses_api/api.py)

    A shallow embedding of [create_course] and
    [create_courses_from_request], and the properties of the
    specification that concern them.

    The two functions are glue code over Django, django CMS, the REST
    framework and richie.  The embedding keeps the code of the two
    functions as it is written and treats every library entry point as
    an external call answered by a [handler] over an arbitrary content
    store: the theorems of the [Properties] section hold for every
    handler, signature function and [str.upper].  [Module Reference]
    gives one executable content store, on which the endpoint is run on
    concrete requests and on which the creation of a course is followed
    down to the rows it leaves. *)

From Stdlib Require Import Strings.String Strings.Ascii Strings.Byte List Bool NArith ZArith Lia.
From stdpp Require Import gmap strings.
Import ListNotations.

Local Open Scope string_scope.
Local Open Scope list_scope.
Set Warnings "-register-all".

(** ** Python values that cross the endpoint *)

(** A Python [str] is held as the Rocq string of its UTF-8 encoding, so
    that equality of [str] values is equality of strings and the empty
    [str] is the empty string. *)

(** JSON-like data carried by responses and by validation errors.
    A dict keeps its items in insertion order. *)
Inductive value : Type :=
| VStr (s : string)
| VList (items : list value)
| VDict (items : list (string * value)).

(** [d[key] = v] on a dict held as its list of items. *)
Fixpoint dict_set (d : list (string * value)) (key : string) (v : value)
  : list (string * value) :=
  match d with
  | [] => [(key, v)]
  | (k, x) :: d' =>
      if String.eqb k key then (k, v) :: d' else (k, x) :: dict_set d' key v
  end.

(** The exceptions that can travel through the endpoint. *)
Inductive exn : Type :=
| UnicodeDecodeError
| KeyError (key : string)
| ValidationError (detail : value)     (* rest_framework.exceptions *)
| DoesNotExist (model : string)        (* Model.DoesNotExist *)
| MultipleObjectsReturned (model : string)
| LibraryError (name : string).        (* any other library exception *)

Definition result (A : Type) : Type := (exn + A)%type.

Definition is_ValidationError (e : exn) : bool :=
  match e with ValidationError _ => true | _ => false end.

Definition is_KeyError (e : exn) : bool :=
  match e with KeyError _ => true | _ => false end.

(** Modelled from the spec: the constructor of the REST framework's
    [ValidationError] (the library is not under src/), whose detail is
    the "validation error content" of section 4.2: a detail that is
    neither a dict nor a list is wrapped in a list, a dict or a list is
    kept. *)
Definition new_ValidationError (detail : value) : exn :=
  match detail with
  | VStr _ => ValidationError (VList [detail])
  | _ => ValidationError detail
  end.

(** Modelled from the spec: [rest_framework.serializers.as_serializer_error]
    (the library is not under src/), which gives the "serialized error
    detail" of section 4.3, a dict: a dict detail keeps its keys, every
    value that is not a list or a dict is put in a list; a list detail
    goes under the key [non_field_errors]. *)
Definition as_list_of_errors (v : value) : value :=
  match v with
  | VStr _ => VList [v]
  | _ => v
  end.

Definition as_serializer_error (error : exn) : value :=
  match error with
  | ValidationError (VDict items) =>
      VDict (map (fun kv => (fst kv, as_list_of_errors (snd kv))) items)
  | ValidationError (VList items) => VDict [("non_field_errors", VList items)]
  | ValidationError detail => VDict [("non_field_errors", VList [detail])]
  | _ => VDict []
  end.

(** ** [bytes.decode("utf-8")] *)

Definition in_range (lo hi b : N) : bool := ((lo <=? b) && (b <=? hi))%N.

(** Well-formed UTF-8 byte sequences (strict decoding: no overlong form,
    no surrogate, nothing above U+10FFFF). *)
Fixpoint utf8_valid (bs : list N) : bool :=
  match bs with
  | [] => true
  | b0 :: rest =>
      if (b0 <=? 0x7F)%N then utf8_valid rest
      else if in_range 0xC2 0xDF b0 then
        match rest with
        | b1 :: rest1 => in_range 0x80 0xBF b1 && utf8_valid rest1
        | _ => false
        end
      else if in_range 0xE0 0xEF b0 then
        match rest with
        | b1 :: b2 :: rest2 =>
            in_range (if (b0 =? 0xE0)%N then 0xA0 else 0x80)
                     (if (b0 =? 0xED)%N then 0x9F else 0xBF) b1
            && in_range 0x80 0xBF b2 && utf8_valid rest2
        | _ => false
        end
      else if in_range 0xF0 0xF4 b0 then
        match rest with
        | b1 :: b2 :: b3 :: rest3 =>
            in_range (if (b0 =? 0xF0)%N then 0x90 else 0x80)
                     (if (b0 =? 0xF4)%N then 0x8F else 0xBF) b1
            && in_range 0x80 0xBF b2 && in_range 0x80 0xBF b3
            && utf8_valid rest3
        | _ => false
        end
      else false
  end.

Definition decode_utf8 (b : list byte) : result string :=
  if utf8_valid (map Byte.to_N b)
  then inr (string_of_list_byte b)
  else inl UnicodeDecodeError.

(** ** Requests, responses, settings *)

Record Request := {
  body : list byte;                  (* request.body *)
  headers : gmap string string;      (* request.headers *)
  data : gmap string string          (* request.data, the parsed payload *)
}.

Record Response := {
  response_data : value;
  response_status : Z
}.

(** [django.conf.settings]: the one setting the endpoint reads; [None]
    when the attribute is not defined. *)
Record Settings := {
  RICHIE_COURSE_RUN_SYNC_SECRETS : option (list string)
}.

(** [getattr(settings, "RICHIE_COURSE_RUN_SYNC_SECRETS", [])] *)
Definition getattr_secrets (settings : Settings) : list string :=
  match RICHIE_COURSE_RUN_SYNC_SECRETS settings with
  | Some secrets => secrets
  | None => []
  end.

(** [not authorization_header], for the [str] or [None] that
    [headers.get] returns. *)
Definition not_header (authorization_header : option string) : bool :=
  match authorization_header with
  | None => true
  | Some h => String.eqb h ""
  end.

(** ** Objects of the content store, as the endpoint sees them *)

Record Page := {
  page_id : nat;
  page_title : string;
  page_parent : option nat;
  page_reverse_id : option string;
  page_publisher_is_draft : bool;
  page_in_navigation : bool;
  page_template : string
}.

Record Organization := {
  organization_id : nat;
  organization_code : string;
  organization_extended_object : nat     (* id of the organization's page *)
}.

Record Course := {
  course_id : nat;
  course_code : string;
  course_extended_object : Page
}.

Record Placeholder := {
  placeholder_id : nat;
  placeholder_page : nat;
  placeholder_slot : string
}.

(** ** Library entry points used by [create_course]

    One constructor per call site, with the arguments of the call. *)
Inductive call : Type :=
| Page_objects_get_reverse_id (reverse_id : string) (publisher_is_draft : bool)
| Organization_objects_get (code : string)
| Page_objects_get_organization (organization : nat) (publisher_is_draft : bool)
| create_i18n_page (title : string) (in_navigation : bool)
    (languages : option (list string)) (parent : Page)
    (reverse_id : option string) (template : string)
| Course_objects_create (extended_object : Page) (code : string)
| create_page_role (course : Course)
| placeholders_get (page : Page) (slot : string)
| get_language
| add_plugin (language : option string) (placeholder : Placeholder)
    (plugin_type : string) (page : Page)
| create_permissions_for_organization (course : Course)
    (organization : Organization).

(** What each call returns when it does not raise. *)
Definition ret_type (c : call) : Type :=
  match c with
  | Page_objects_get_reverse_id _ _ => Page
  | Organization_objects_get _ => Organization
  | Page_objects_get_organization _ _ => Page
  | create_i18n_page _ _ _ _ _ _ => Page
  | Course_objects_create _ _ => Course
  | create_page_role _ => unit
  | placeholders_get _ _ => Placeholder
  | get_language => option string
  | add_plugin _ _ _ _ => unit
  | create_permissions_for_organization _ _ => unit
  end.

(** A call that was made, with what came back. *)
Inductive event : Type :=
| Event (c : call) (r : result (ret_type c)).

Definition ev_call (e : event) : call :=
  match e with Event c _ => c end.

Definition ev_raised (e : event) : option exn :=
  match e with
  | Event _ (inl x) => Some x
  | Event _ (inr _) => None
  end.

(** ** The monad of the endpoint: content store, call trace, exceptions *)

Record world (Store : Type) := World {
  store : Store;
  trace : list event
}.
Arguments World {Store} _ _.
Arguments store {Store} _.
Arguments trace {Store} _.

Definition M (Store A : Type) : Type :=
  world Store -> result A * world Store.

Definition ret {Store A} (a : A) : M Store A := fun w => (inr a, w).

Definition raise {Store A} (e : exn) : M Store A := fun w => (inl e, w).

Definition bind {Store A B} (m : M Store A) (k : A -> M Store B) : M Store B :=
  fun w =>
    match m w with
    | (inr a, w') => k a w'
    | (inl e, w') => (inl e, w')
    end.

(** A pure computation that may raise. *)
Definition lift {Store A} (r : result A) : M Store A := fun w => (r, w).

(** [try: m  except E as e: h e], [handles] telling the exceptions of
    class [E]; any other exception goes through. *)
Definition try_except {Store A} (m : M Store A) (handles : exn -> bool)
    (h : exn -> M Store A) : M Store A :=
  fun w =>
    match m w with
    | (inl e, w') => if handles e then h e w' else (inl e, w')
    | (inr a, w') => (inr a, w')
    end.

Notation "x <- m ;; k" := (bind m (fun x => k))
  (at level 20, m at level 99, k at level 200, only parsing).
Notation "' pat <- m ;; k" := (bind m (fun x => match x with pat => k end))
  (at level 20, pat pattern, m at level 99, k at level 200, only parsing).

(** [data[key]] on the payload. *)
Definition getitem (data : gmap string string) (key : string) : result string :=
  match data !! key with
  | Some v => inr v
  | None => inl (KeyError key)
  end.

Section Endpoint.

Context {Store : Type}.

(** The libraries: every call is answered on the current store, by a
    value or an exception, and leaves a store. *)
Variable handler : forall c : call, Store -> result (ret_type c) * Store.

(** [richie.apps.courses.utils.get_signature(message, secret)] *)
Variable get_signature : string -> string -> string.

(** [str.upper] *)
Variable upper : string -> string.

(** [Course.PAGE["template"]] *)
Variable Course_PAGE_template : string.

Variable settings : Settings.

(** A library call: the handler answers, the call is logged. *)
Definition lib (c : call) : M Store (ret_type c) :=
  fun w =>
    let (r, s') := handler c (store w) in
    (r, World s' (trace w ++ [Event c r])).

Definition required_fields_message : string :=
  "You must pass course_code, course_title and organization_code.".

Definition missing_fields_detail : value :=
  VDict [("input_data", VList [VStr required_fields_message])].

(** The [try ... except KeyError] of [create_course], lines 49-56. *)
Definition required_fields (data : gmap string string)
  : M Store (string * string * string) :=
  try_except
    (code <- lift (getitem data "course_code") ;;
     title <- lift (getitem data "course_title") ;;
     organization_code <- lift (getitem data "organization_code") ;;
     ret (code, title, organization_code))
    is_KeyError
    (fun _ => raise (new_ValidationError missing_fields_detail)).

(** [create_course(data)], lines 49-86. *)
Definition create_course (data : gmap string string) : M Store unit :=
  '(code, title, organization_code) <- required_fields data ;;
  courses_page <- lib (Page_objects_get_reverse_id "courses" true) ;;
  org_obj <- lib (Organization_objects_get (upper organization_code)) ;;
  organization_page <-
    lib (Page_objects_get_organization (organization_id org_obj) true) ;;
  page_obj <-
    lib (create_i18n_page title false None courses_page None
           Course_PAGE_template) ;;
  course_obj <- lib (Course_objects_create page_obj code) ;;
  _ <- lib (create_page_role course_obj) ;;
  placeholder <-
    lib (placeholders_get (course_extended_object course_obj)
           "course_organizations") ;;
  language <- lib get_language ;;
  _ <- lib (add_plugin language placeholder "OrganizationPlugin"
              organization_page) ;;
  lib (create_permissions_for_organization course_obj org_obj).

(** [authorization_header == signature] *)
Definition header_eq (authorization_header : option string)
    (signature : string) : bool :=
  match authorization_header with
  | Some h => String.eqb h signature
  | None => false
  end.

(** The [any(...)] of lines 121-124. *)
Definition signature_is_valid (authorization_header : option string)
    (message : string) : bool :=
  existsb
    (fun secret => header_eq authorization_header (get_signature message secret))
    (getattr_secrets settings).

(** [create_courses_from_request(request, version)], lines 114-138. *)
Definition create_courses_from_request (request : Request)
    (version : string) : M Store Response :=
  message <- lift (decode_utf8 (body request)) ;;
  let authorization_header := headers request !! "Authorization" in
  if not_header authorization_header then
    ret (Build_Response (VStr "Missing authentication.") 403)
  else
    if negb (signature_is_valid authorization_header message) then
      ret (Build_Response (VStr "Invalid authentication.") 401)
    else
      let result := [] in
      let status := 200%Z in
      '(result, status) <-
        try_except
          (_ <- create_course (data request) ;; ret (result, status))
          is_ValidationError
          (fun error =>
             ret (dict_set result "error" (as_serializer_error error), 400%Z)) ;;
      ret (Build_Response (VDict result) status).

(** A request that gets past lines 114-127: its body decodes, its header
    is there and not empty, and one of the secrets signs the body with it. *)
Definition authenticated (request : Request) : Prop :=
  exists message,
    decode_utf8 (body request) = inr message
    /\ not_header (headers request !! "Authorization") = false
    /\ signature_is_valid (headers request !! "Authorization") message = true.

End Endpoint.

(** ** A reference content store *)

(** Modelled from the spec: the persistence layer behind the library
    calls (Django's ORM, django CMS and richie, none of them under src/),
    after sections 3 and 4.2 of the specification: [Model.objects.get]
    returns the one matching row and raises [DoesNotExist] or
    [MultipleObjectsReturned] otherwise; a new page is a draft and gets
    one placeholder per slot declared by its template; the store refuses
    a second course with the same code; the calls of steps 4 to 8 write,
    the lookups do not.  Nothing in the [Properties] section depends on
    it. *)
Module Reference.

Record Plugin := {
  plugin_placeholder : nat;
  plugin_plugin_type : string;
  plugin_language : option string;
  plugin_page : nat
}.

Record CMS := {
  pages : list Page;
  organizations : list Organization;
  courses : list Course;
  placeholders : list Placeholder;
  plugins : list Plugin;
  page_roles : list nat;                (* courses with a page role *)
  page_permissions : list (nat * nat);  (* (course, organization) *)
  next_id : nat;
  template_slots : list (string * list string);
  active_language : option string
}.

(** [Model.objects.get(...)] on the rows that match the filter. *)
Definition objects_get {A} (model : string) (rows : list A) : result A :=
  match rows with
  | [] => inl (DoesNotExist model)
  | [row] => inr row
  | _ => inl (MultipleObjectsReturned model)
  end.

Definition option_string_eqb (a b : option string) : bool :=
  match a, b with
  | Some x, Some y => String.eqb x y
  | None, None => true
  | _, _ => false
  end.

Definition is_reverse_id (reverse_id : string) (draft : bool) (p : Page) : bool :=
  option_string_eqb (page_reverse_id p) (Some reverse_id)
  && Bool.eqb (page_publisher_is_draft p) draft.

Definition has_code (code : string) (o : Organization) : bool :=
  String.eqb (organization_code o) code.

Definition is_page_of (s : CMS) (organization : nat) (draft : bool) (p : Page) : bool :=
  existsb (fun o => Nat.eqb (organization_id o) organization
                    && Nat.eqb (organization_extended_object o) (page_id p))
          (organizations s)
  && Bool.eqb (page_publisher_is_draft p) draft.

Definition is_slot_of (page : Page) (slot : string) (ph : Placeholder) : bool :=
  Nat.eqb (placeholder_page ph) (page_id page)
  && String.eqb (placeholder_slot ph) slot.

Fixpoint slots_of (table : list (string * list string)) (template : string)
  : list string :=
  match table with
  | [] => []
  | (t, slots) :: table' =>
      if String.eqb t template then nodup string_dec slots
      else slots_of table' template
  end.

Definition new_page (s : CMS) (title : string) (in_navigation : bool)
    (parent : Page) (reverse_id : option string) (template : string) : Page :=
  {| page_id := next_id s;
     page_title := title;
     page_parent := Some (page_id parent);
     page_reverse_id := reverse_id;
     page_publisher_is_draft := true;
     page_in_navigation := in_navigation;
     page_template := template |}.

(** The placeholder of one slot of the page [page], under the id given
    with the slot. *)
Definition placeholder_on (page : nat) (ns : nat * string) : Placeholder :=
  {| placeholder_id := fst ns;
     placeholder_page := page;
     placeholder_slot := snd ns |}.

Definition new_placeholders (s : CMS) (template : string) : list Placeholder :=
  let slots := slots_of (template_slots s) template in
  map (placeholder_on (next_id s))
      (combine (seq (S (next_id s)) (length slots)) slots).

Definition handler (c : call) : CMS -> result (ret_type c) * CMS :=
  match c as c0 return CMS -> result (ret_type c0) * CMS with
  | Page_objects_get_reverse_id reverse_id draft => fun s =>
      (objects_get "Page" (List.filter (is_reverse_id reverse_id draft) (pages s)), s)
  | Organization_objects_get code => fun s =>
      (objects_get "Organization" (List.filter (has_code code) (organizations s)), s)
  | Page_objects_get_organization organization draft => fun s =>
      (objects_get "Page" (List.filter (is_page_of s organization draft) (pages s)), s)
  | create_i18n_page title in_navigation _ parent reverse_id template => fun s =>
      let page := new_page s title in_navigation parent reverse_id template in
      let phs := new_placeholders s template in
      (inr page,
       {| pages := pages s ++ [page];
          organizations := organizations s;
          courses := courses s;
          placeholders := placeholders s ++ phs;
          plugins := plugins s;
          page_roles := page_roles s;
          page_permissions := page_permissions s;
          next_id := S (next_id s) + length phs;
          template_slots := template_slots s;
          active_language := active_language s |})
  | Course_objects_create extended_object code => fun s =>
      if existsb (fun c => String.eqb (course_code c) code) (courses s)
      then (inl (LibraryError "IntegrityError"), s)
      else
        let course := {| course_id := next_id s;
                         course_code := code;
                         course_extended_object := extended_object |} in
        (inr course,
         {| pages := pages s;
            organizations := organizations s;
            courses := courses s ++ [course];
            placeholders := placeholders s;
            plugins := plugins s;
            page_roles := page_roles s;
            page_permissions := page_permissions s;
            next_id := S (next_id s);
            template_slots := template_slots s;
            active_language := active_language s |})
  | create_page_role course => fun s =>
      (inr tt,
       {| pages := pages s;
          organizations := organizations s;
          courses := courses s;
          placeholders := placeholders s;
          plugins := plugins s;
          page_roles := page_roles s ++ [course_id course];
          page_permissions := page_permissions s;
          next_id := next_id s;
          template_slots := template_slots s;
          active_language := active_language s |})
  | placeholders_get page slot => fun s =>
      (objects_get "Placeholder" (List.filter (is_slot_of page slot) (placeholders s)), s)
  | get_language => fun s => (inr (active_language s), s)
  | add_plugin language placeholder plugin_type page => fun s =>
      (inr tt,
       {| pages := pages s;
          organizations := organizations s;
          courses := courses s;
          placeholders := placeholders s;
          plugins := plugins s ++
            [{| plugin_placeholder := placeholder_id placeholder;
                plugin_plugin_type := plugin_type;
                plugin_language := language;
                plugin_page := page_id page |}];
          page_roles := page_roles s;
          page_permissions := page_permissions s;
          next_id := next_id s;
          template_slots := template_slots s;
          active_language := active_language s |})
  | create_permissions_for_organization course organization => fun s =>
      (inr tt,
       {| pages := pages s;
          organizations := organizations s;
          courses := courses s;
          placeholders := placeholders s;
          plugins := plugins s;
          page_roles := page_roles s;
          page_permissions := page_permissions s ++
            [(course_id course, organization_id organization)];
          next_id := next_id s;
          template_slots := template_slots s;
          active_language := active_language s |})
  end.

(** [str.upper] on ASCII text, for the runs on the reference store: the
    letters a-z go to A-Z, every other byte stays. *)
Definition ascii_upper (c : ascii) : ascii :=
  let n := nat_of_ascii c in
  if Nat.leb 97 n && Nat.leb n 122 then ascii_of_nat (n - 32) else c.

Fixpoint upper (s : string) : string :=
  match s with
  | EmptyString => EmptyString
  | String c s' => String (ascii_upper c) (upper s')
  end.

(** Modelled from the spec: the signature function, richie's
    [get_signature] (not under src/), "deterministic, secret-keyed"
    (section 4.1).  This one is a stand-in for the runs on the reference
    store, in the format of richie's signatures; it is not a MAC. *)
Definition get_signature (message secret : string) : string :=
  "SIG-HMAC-SHA256 " +:+ secret +:+ ":" +:+ message.

Definition Course_PAGE_template : string := "courses/cms/course_detail.html".

(** The endpoint and [create_course] on the reference store. *)
Definition endpoint (settings : Settings) (request : Request)
  : world CMS -> result Response * world CMS :=
  create_courses_from_request handler get_signature upper
    Course_PAGE_template settings request "1.0".

Definition run_create_course (data : gmap string string)
  : world CMS -> result unit * world CMS :=
  create_course handler upper Course_PAGE_template data.

(** *** A small site: the courses root, one organization, its page *)

Definition courses_root : Page :=
  {| page_id := 1; page_title := "Courses"; page_parent := None;
     page_reverse_id := Some "courses"; page_publisher_is_draft := true;
     page_in_navigation := true; page_template := "courses/cms/course_list.html" |}.

Definition org_page : Page :=
  {| page_id := 2; page_title := "Organization 123"; page_parent := None;
     page_reverse_id := None; page_publisher_is_draft := true;
     page_in_navigation := true;
     page_template := "courses/cms/organization_detail.html" |}.

Definition org123 : Organization :=
  {| organization_id := 7; organization_code := "ORG123";
     organization_extended_object := 2 |}.

Definition site : CMS :=
  {| pages := [courses_root; org_page];
     organizations := [org123];
     courses := [];
     placeholders := [];
     plugins := [];
     page_roles := [];
     page_permissions := [];
     next_id := 10;
     template_slots :=
       [(Course_PAGE_template, ["course_teaser"; "course_organizations"])];
     active_language := Some "en" |}.

Definition secrets : Settings :=
  {| RICHIE_COURSE_RUN_SYNC_SECRETS := Some ["old-secret"; "new-secret"] |}.

Definition payload : gmap string string :=
  {[ "course_code" := "cs101";
     "course_title" := "Introduction to Computer Science";
     "organization_code" := "org123" ]}.

Definition body_bytes : list byte := [x7b; x7d].   (* the text of the body *)

Definition signed (data : gmap string string) : Request :=
  {| body := body_bytes;
     headers := {[ "Authorization" := get_signature "{}" "new-secret" ]};
     data := data |}.

Definition signed_request : Request := signed payload.

(** The header is sent, with nothing in it. *)
Definition empty_header_request : Request :=
  {| body := body_bytes;
     headers := {[ "Authorization" := "" ]};
     data := payload |}.

(** A body that is not UTF-8: the single byte 0xFF. *)
Definition undecodable_request : Request :=
  {| body := [xff];
     headers := {[ "Authorization" := "" ]};
     data := payload |}.

(** A header that no configured secret signs. *)
Definition forged_request : Request :=
  {| body := body_bytes;
     headers := {[ "Authorization" := get_signature "{}" "guessed-secret" ]};
     data := payload |}.

Definition payload_without_organization : gmap string string :=
  {[ "course_code" := "cs101";
     "course_title" := "Introduction to Computer Science" ]}.

Definition payload_unknown_organization : gmap string string :=
  {[ "course_code" := "cs101";
     "course_title" := "Introduction to Computer Science";
     "organization_code" := "nowhere" ]}.


End Reference.

(** ** Vocabulary of the statements *)

(** The request with its [Authorization] header taken away. *)
Definition without_authorization (request : Request) : Request :=
  {| body := body request;
     headers := delete "Authorization" (headers request);
     data := data request |}.

(** [needle in text] *)
Definition names (needle text : string) : bool :=
  match String.index 0 needle text with
  | Some _ => true
  | None => false
  end.

(** The call that grants the course's permissions to the organization. *)
Definition is_grant (ev : event) : bool :=
  match ev_call ev with
  | create_permissions_for_organization _ _ => true
  | _ => false
  end.

(** A call that attached an organization plugin, and returned. *)
Definition is_attach (ev : event) : bool :=
  match ev_call ev, ev_raised ev with
  | add_plugin _ _ plugin_type _, None => String.eqb plugin_type "OrganizationPlugin"
  | _, _ => false
  end.

(** The calls that write to the content store (steps 4 to 8). *)
Definition is_write (ev : event) : bool :=
  match ev_call ev with
  | create_i18n_page _ _ _ _ _ _
  | Course_objects_create _ _
  | create_page_role _
  | add_plugin _ _ _ _
  | create_permissions_for_organization _ _ => true
  | _ => false
  end.

(** The lookups: the courses root, the organization, its draft page, the
    placeholder of the new page. *)
Definition is_lookup (ev : event) : bool :=
  match ev_call ev with
  | Page_objects_get_reverse_id _ _
  | Organization_objects_get _
  | Page_objects_get_organization _ _
  | placeholders_get _ _ => true
  | _ => false
  end.

(** The calls that create a page or a course. *)
Definition is_creation (ev : event) : bool :=
  match ev_call ev with
  | create_i18n_page _ _ _ _ _ _
  | Course_objects_create _ _ => true
  | _ => false
  end.

(** At least one of the three required keys is not in the payload. *)
Definition missing_field (data : gmap string string) : Prop :=
  data !! "course_code" = None
  \/ data !! "course_title" = None
  \/ data !! "organization_code" = None.

(** The world in which a request arrives: a store, no call made yet. *)
Definition start {Store} (s : Store) : world Store := World s [].

(** Every grant in the trace comes after an attached organization plugin;
    [attached] tells whether one was seen already. *)
Fixpoint grants_follow_attach (attached : bool) (evs : list event) : bool :=
  match evs with
  | [] => true
  | ev :: evs' =>
      (negb (is_grant ev) || attached)
      && grants_follow_attach (attached || is_attach ev) evs'
  end.

(** The last element of a trace. *)
Definition last_event (evs : list event) : option event :=
  match rev evs with
  | [] => None
  | ev :: _ => Some ev
  end.

(** * The rest of the repository: regular expressions, static files,
      management script, routes *)

(** ** Python's [re], for the patterns of the repository

    The constructs the two patterns use: literal characters (an escaped
    [\/] or [\.] is the character itself), [.], a range [[a-b]], [*],
    [?], [^] and [$].  A matcher consumes a prefix of what is left of
    the string and hands the rest to its continuation; [pos] counts the
    characters consumed so far, for [^].  Strings are matched byte by
    byte; the patterns use [.] only under [*], where this accepts the
    same strings as matching code point by code point. *)
Module Re.

Inductive regex : Type :=
| Lits (s : string)          (* literal characters *)
| Any                        (* .   anything but a newline *)
| Range (lo hi : ascii)      (* [lo-hi] *)
| Seq (r1 r2 : regex)
| Star (r : regex)           (* r* *)
| Opt (r : regex)            (* r? *)
| Bol                        (* ^   the start of the string *)
| Eol.                       (* $   the end, or before a last newline *)

Definition newline : ascii := "010"%char.

Definition continuation : Type := nat -> string -> bool.

Fixpoint strip_prefix (p s : string) : option string :=
  match p with
  | EmptyString => Some s
  | String a p' =>
      match s with
      | String b s' => if Ascii.eqb a b then strip_prefix p' s' else None
      | EmptyString => None
      end
  end.

Definition in_class (lo hi c : ascii) : bool :=
  Nat.leb (nat_of_ascii lo) (nat_of_ascii c)
  && Nat.leb (nat_of_ascii c) (nat_of_ascii hi).

Definition not_newline (c : ascii) : bool := negb (Ascii.eqb c newline).

(** [$] holds where nothing is left, or only a newline. *)
Definition at_end (s : string) : bool :=
  match s with
  | EmptyString => true
  | String c EmptyString => Ascii.eqb c newline
  | _ => false
  end.

(** One character of a class. *)
Definition char_step (P : ascii -> bool) (pos : nat) (s : string)
    (k : continuation) : bool :=
  match s with
  | String c s' => P c && k (S pos) s'
  | EmptyString => false
  end.

(** [r*]: one more round of [step] that consumes something, then the
    star again, or else stop here.  There are at most as many rounds as
    characters left, which is what [fuel] starts from. *)
Fixpoint star (step : nat -> string -> continuation -> bool) (fuel : nat)
    (pos : nat) (s : string) (k : continuation) : bool :=
  match fuel with
  | O => k pos s
  | S fuel' =>
      step pos s
        (fun pos' s' =>
           Nat.ltb (String.length s') (String.length s)
           && star step fuel' pos' s' k)
      || k pos s
  end.

Fixpoint run (r : regex) (pos : nat) (s : string) (k : continuation) : bool :=
  match r with
  | Lits p =>
      match strip_prefix p s with
      | Some s' => k (pos + String.length p) s'
      | None => false
      end
  | Any => char_step not_newline pos s k
  | Range lo hi => char_step (in_class lo hi) pos s k
  | Seq r1 r2 => run r1 pos s (fun pos' s' => run r2 pos' s' k)
  | Star r1 => star (run r1) (String.length s) pos s k
  | Opt r1 => run r1 pos s k || k pos s
  | Bol => Nat.eqb pos 0 && k pos s
  | Eol => at_end s && k pos s
  end.

Fixpoint concat (rs : list regex) : regex :=
  match rs with
  | [] => Lits EmptyString
  | [r] => r
  | r :: rs' => Seq r (concat rs')
  end.

(** [pattern.match(s)]: a match that starts at the start of [s]. *)
Definition re_match (r : regex) (s : string) : bool :=
  run r 0 s (fun _ _ => true).

(** [pattern.fullmatch(s)]: a match of the whole of [s]. *)
Definition re_fullmatch (r : regex) (s : string) : bool :=
  run r 0 s (fun _ s' => match s' with EmptyString => true | _ => false end).

(** [pattern.search(s)]: a match that starts anywhere in [s]. *)
Fixpoint search_from (r : regex) (pos : nat) (s : string) : bool :=
  run r pos s (fun _ _ => true)
  || match s with
     | String _ s' => search_from r (S pos) s'
     | EmptyString => false
     end.

Definition re_search (r : regex) (s : string) : bool := search_from r 0 s.

(** Every character of [s] is in the class. *)
Fixpoint all_in (P : ascii -> bool) (s : string) : bool :=
  match s with
  | EmptyString => true
  | String c s' => P c && all_in P s'
  end.

End Re.

(** ** base/storage.py *)

Module Storage.

(** [re.compile(r"^richie\/js\/[0-9]*\..*\.index\.js$")] *)
Definition STATIC_POSTPROCESS_IGNORE_REGEX : Re.regex :=
  Re.concat [Re.Bol; Re.Lits "richie/js/"; Re.Star (Re.Range "0" "9");
             Re.Lits "."; Re.Star Re.Any; Re.Lits ".index.js"; Re.Eol].

(** The settings the storage backends read; [None] for an attribute that
    is not defined. *)
Record Settings := {
  CDN_DOMAIN : option string;
  AWS_MEDIA_BUCKET_NAME : option string;
  MEDIA_URL : option string
}.

Section Backends.

(** The values of the [paths] dict, what the parent's [post_process]
    yields, and its options. *)
Context {V Y Options : Type}.

(** [ManifestStaticFilesStorage.post_process], once iterated. *)
Variable super_post_process :
  list (string * V) -> bool -> Options -> result (list Y).

(** [ManifestStaticFilesStorage.url] *)
Variable super_url : string -> bool -> result string.

Variable settings : Settings.

(** [d[key]] on an ordered dict held as its list of items. *)
Fixpoint od_getitem (d : list (string * V)) (key : string) : result V :=
  match d with
  | [] => inl (KeyError key)
  | (k, v) :: d' => if String.eqb k key then inr v else od_getitem d' key
  end.

(** [d[key] = v]: a key of the dict keeps its place, a new one goes last. *)
Fixpoint od_setitem (d : list (string * V)) (key : string) (v : V)
  : list (string * V) :=
  match d with
  | [] => [(key, v)]
  | (k, x) :: d' =>
      if String.eqb k key then (k, v) :: d' else (k, x) :: od_setitem d' key v
  end.

(** The test of line 37 on an item of [paths]: the item is kept. *)
Definition kept (kv : string * V) : bool :=
  negb (Re.re_match STATIC_POSTPROCESS_IGNORE_REGEX (fst kv)).

(** The loop of lines 35-38, over the keys that are left. *)
Fixpoint filter_loop (paths : list (string * V)) (keys : list string)
    (filtered_paths : list (string * V)) : result (list (string * V)) :=
  match keys with
  | [] => inr filtered_paths
  | path :: keys' =>
      if negb (Re.re_match STATIC_POSTPROCESS_IGNORE_REGEX path) then
        match od_getitem paths path with
        | inr v => filter_loop paths keys' (od_setitem filtered_paths path v)
        | inl e => inl e
        end
      else filter_loop paths keys' filtered_paths
  end.

Definition filtered_paths (paths : list (string * V))
  : result (list (string * V)) :=
  filter_loop paths (map fst paths) [].

(** [CDNManifestStaticFilesStorage.post_process], lines 19-40: what the
    generator yields when it is iterated to its end. *)
Definition post_process (paths : list (string * V)) (dry_run : bool)
    (options : Options) : result (list Y) :=
  match filtered_paths paths with
  | inr filtered => super_post_process filtered dry_run options
  | inl e => inl e
  end.

(** [if cdn_domain:] *)
Definition truthy (cdn_domain : option string) : bool :=
  match cdn_domain with
  | Some d => negb (String.eqb d "")
  | None => false
  end.

(** [CDNManifestStaticFilesStorage.url], lines 42-52. *)
Definition url (name : string) (force : bool) : result string :=
  match super_url name force with
  | inl e => inl e
  | inr url =>
      let cdn_domain := CDN_DOMAIN settings in
      match cdn_domain with
      | Some d =>
          if truthy cdn_domain then inr ("//" +:+ d +:+ url) else inr url
      | None => inr url
      end
  end.

End Backends.

(** The class attributes of [MediaStorage], lines 55-61; the class body
    raises when [settings.MEDIA_URL] is not defined. *)
Record MediaStorage := {
  bucket_name : option string;
  custom_domain : option string;
  file_overwrite : bool;
  location : string
}.

Definition new_MediaStorage (settings : Settings) : result MediaStorage :=
  match MEDIA_URL settings with
  | Some media_url =>
      inr {| bucket_name := AWS_MEDIA_BUCKET_NAME settings;
             custom_domain := CDN_DOMAIN settings;
             file_overwrite := false;
             location := media_url |}
  | None => inl (LibraryError "AttributeError")
  end.

End Storage.

(** ** sites/ednxrichie manage.py *)

Module Manage.

(** [os.environ.setdefault(key, default)] *)
Definition setdefault (environ : gmap string string) (key default : string)
  : gmap string string :=
  match environ !! key with
  | Some _ => environ
  | None => <[key := default]> environ
  end.

(** The two [setdefault] of lines 9-10. *)
Definition configure (environ : gmap string string) : gmap string string :=
  setdefault
    (setdefault environ "DJANGO_SETTINGS_MODULE" "ednxrichie.settings")
    "DJANGO_CONFIGURATION" "Development".

Section Script.

Context {R : Type}.

(** [configurations.management.execute_from_command_line], run in an
    environment. *)
Variable execute_from_command_line : gmap string string -> list string -> R.

(** The script, lines 8-14: under any other [__name__] it does nothing. *)
Definition script (name : string) (environ : gmap string string)
    (argv : list string) : gmap string string * option R :=
  if String.eqb name "__main__" then
    let environ' := configure environ in
    (environ', Some (execute_from_command_line environ' argv))
  else (environ, None).

End Script.

End Manage.

(** ** courses_api/urls.py *)

Module Urls.

(** The pattern of the route, ["unesco-course-sync/?$"], line 15. *)
Definition unesco_course_sync : Re.regex :=
  Re.concat [Re.Lits "unesco-course-sync"; Re.Opt (Re.Lits "/"); Re.Eol].

End Urls.

(** ** Sample data for the runs on the rest of the repository *)

Module Samples.

(** The small site, with a course that already has the code cs101. *)
Definition taken_site : Reference.CMS :=
  {| Reference.pages := Reference.pages Reference.site;
     Reference.organizations := Reference.organizations Reference.site;
     Reference.courses :=
       [{| course_id := 5; course_code := "cs101";
           course_extended_object := Reference.org_page |}];
     Reference.placeholders := [];
     Reference.plugins := [];
     Reference.page_roles := [];
     Reference.page_permissions := [];
     Reference.next_id := 10;
     Reference.template_slots := Reference.template_slots Reference.site;
     Reference.active_language := Some "en" |}.

(** No secret is configured. *)
Definition unconfigured : Settings :=
  {| RICHIE_COURSE_RUN_SYNC_SECRETS := None |}.

(** Collected static files: a webpack chunk, a style sheet, and the
    entry point of the front end. *)
Definition static_paths : list (string * nat) :=
  [("richie/js/12.3f9a.index.js", 1); ("css/main.css", 2);
   ("richie/js/index.js", 3)].

(** A stand-in for the parent's [post_process]: it yields the names it
    is given. *)
Definition listing (paths : list (string * nat)) (dry_run : bool)
    (options : unit) : result (list string) :=
  inr (map fst paths).

(** A stand-in for the parent's [url]: the name under "/static/". *)
Definition static_url (name : string) (force : bool) : result string :=
  inr ("/static/" +:+ name).

Definition cdn_settings : Storage.Settings :=
  {| Storage.CDN_DOMAIN := Some "cdn.example.com";
     Storage.AWS_MEDIA_BUCKET_NAME := None;
     Storage.MEDIA_URL := Some "/media/" |}.

(** The settings before the newer secret was added. *)
Definition old_secret_only : Settings :=
  {| RICHIE_COURSE_RUN_SYNC_SECRETS := Some ["old-secret"] |}.

(** An environment that already names its configuration. *)
Definition production : gmap string string :=
  {[ "DJANGO_CONFIGURATION" := "Production" ]}.

(** A stand-in for the command line: it reports the settings module it
    was run with. *)
Definition report (environ : gmap string string) (argv : list string)
  : option string :=
  environ !! "DJANGO_SETTINGS_MODULE".

End Samples.

(** ** The small site, one thing changed at a time *)

Module Variants.

Definition make (pages : list Page) (organizations : list Organization)
    (placeholders : list Placeholder)
    (template_slots : list (string * list string)) : Reference.CMS :=
  {| Reference.pages := pages;
     Reference.organizations := organizations;
     Reference.courses := [];
     Reference.placeholders := placeholders;
     Reference.plugins := [];
     Reference.page_roles := [];
     Reference.page_permissions := [];
     Reference.next_id := 10;
     Reference.template_slots := template_slots;
     Reference.active_language := Some "en" |}.


(** The courses root twice, as two draft pages with the reverse id. *)
Definition second_courses_root : Page :=
  {| page_id := 3; page_title := "Courses"; page_parent := None;
     page_reverse_id := Some "courses"; page_publisher_is_draft := true;
     page_in_navigation := true; page_template := "courses/cms/course_list.html" |}.

Definition two_courses_roots : Reference.CMS :=
  make [Reference.courses_root; Reference.org_page; second_courses_root]
    [Reference.org123] [] (Reference.template_slots Reference.site).

(** The public copy of the organization's page, and the organization row
    that goes with it: the organization is published. *)
Definition org_public_page : Page :=
  {| page_id := 3; page_title := "Organization 123"; page_parent := None;
     page_reverse_id := None; page_publisher_is_draft := false;
     page_in_navigation := true;
     page_template := "courses/cms/organization_detail.html" |}.

Definition org123_public : Organization :=
  {| organization_id := 8; organization_code := "ORG123";
     organization_extended_object := 3 |}.

Definition published_organization : Reference.CMS :=
  make [Reference.courses_root; Reference.org_page; org_public_page]
    [Reference.org123; org123_public] []
    (Reference.template_slots Reference.site).

(** The organization's code is stored as "Org123". *)
Definition org123_mixed_case : Organization :=
  {| organization_id := 7; organization_code := "Org123";
     organization_extended_object := 2 |}.

Definition mixed_case_organization : Reference.CMS :=
  make [Reference.courses_root; Reference.org_page] [org123_mixed_case] []
    (Reference.template_slots Reference.site).

(** The organization has its public page only. *)
Definition org123_on_public_page : Organization :=
  {| organization_id := 7; organization_code := "ORG123";
     organization_extended_object := 3 |}.

Definition organization_without_draft_page : Reference.CMS :=
  make [Reference.courses_root; org_public_page] [org123_on_public_page] []
    (Reference.template_slots Reference.site).

(** The course template declares no "course_organizations" slot. *)
Definition without_slot : Reference.CMS :=
  make [Reference.courses_root; Reference.org_page] [Reference.org123] []
    [(Reference.Course_PAGE_template, ["course_teaser"])].

(** A placeholder row is left under the id the next page will get. *)
Definition stale_placeholder : Reference.CMS :=
  make [Reference.courses_root; Reference.org_page] [Reference.org123]
    [{| placeholder_id := 4; placeholder_page := 10;
        placeholder_slot := "course_organizations" |}]
    (Reference.template_slots Reference.site).

End Variants.

(** ** A content store that normalizes the codes of its courses *)

(** Modelled from the library: richie (not under src/) normalizes the
    code of a course when the course is saved, and a code of lower-case
    letters and digits is stored in upper case.  The store answers every
    other call as the reference store does. *)
Module Normalizing.

Definition normalize_code (code : string) : string := Reference.upper code.

Definition handler (c : call)
  : Reference.CMS -> result (ret_type c) * Reference.CMS :=
  match c as c0 return Reference.CMS -> result (ret_type c0) * Reference.CMS with
  | Course_objects_create extended_object code =>
      Reference.handler (Course_objects_create extended_object (normalize_code code))
  | Page_objects_get_reverse_id reverse_id draft =>
      Reference.handler (Page_objects_get_reverse_id reverse_id draft)
  | Organization_objects_get code =>
      Reference.handler (Organization_objects_get code)
  | Page_objects_get_organization organization draft =>
      Reference.handler (Page_objects_get_organization organization draft)
  | create_i18n_page title in_navigation languages parent reverse_id template =>
      Reference.handler
        (create_i18n_page title in_navigation languages parent reverse_id template)
  | create_page_role course => Reference.handler (create_page_role course)
  | placeholders_get page slot => Reference.handler (placeholders_get page slot)
  | get_language => Reference.handler get_language
  | add_plugin language placeholder plugin_type page =>
      Reference.handler (add_plugin language placeholder plugin_type page)
  | create_permissions_for_organization course organization =>
      Reference.handler (create_permissions_for_organization course organization)
  end.

Definition run_create_course (data : gmap string string)
  : world Reference.CMS -> result unit * world Reference.CMS :=
  create_course handler Reference.upper Reference.Course_PAGE_template data.

End Normalizing.

(** ** [request.data], parsed when it is read *)

(** The REST framework parses the body of a request the first time
    [request.data] is read, and its parsers raise on a body they cannot
    read ([ParseError], [UnsupportedMediaType]).  The view reads
    [request.data] once, at line 132, inside the [try]: [lazy_data] is
    what that read gives, the payload or the exception.  [Request] above
    is the request whose payload has parsed. *)
Record LazyRequest := {
  lazy_body : list byte;
  lazy_headers : gmap string string;
  lazy_data : result (gmap string string)
}.

Definition parsed (request : LazyRequest) (data : gmap string string) : Request :=
  {| body := lazy_body request;
     headers := lazy_headers request;
     data := data |}.

Module Lazy.

Section View.

Context {Store : Type}.
Variable handler : forall c : call, Store -> result (ret_type c) * Store.
Variable get_signature : string -> string -> string.
Variable upper : string -> string.
Variable Course_PAGE_template : string.
Variable settings : Settings.

(** [create_courses_from_request(request, version)], lines 114-138, the
    body of the function under [@api_view(["POST"])]; the wrapper, which
    answers the other methods itself and turns the framework's exceptions
    into responses, is the REST framework's. *)
Definition create_courses_from_request (request : LazyRequest)
    (version : string) : M Store Response :=
  message <- lift (decode_utf8 (lazy_body request)) ;;
  let authorization_header := lazy_headers request !! "Authorization" in
  if not_header authorization_header then
    ret (Build_Response (VStr "Missing authentication.") 403)
  else
    if negb (signature_is_valid get_signature settings authorization_header message) then
      ret (Build_Response (VStr "Invalid authentication.") 401)
    else
      let result := [] in
      let status := 200%Z in
      '(result, status) <-
        try_except
          (data <- lift (lazy_data request) ;;
           _ <- create_course handler upper Course_PAGE_template data ;;
           ret (result, status))
          is_ValidationError
          (fun error =>
             ret (dict_set result "error" (as_serializer_error error), 400%Z)) ;;
      ret (Build_Response (VDict result) status).

(** The request gets past lines 114-127, whatever its payload. *)
Definition authenticated (request : LazyRequest) : Prop :=
  authenticated get_signature settings (parsed request ∅).

End View.

(** A signed request whose body no parser reads. *)
Definition malformed_request : LazyRequest :=
  {| lazy_body := Reference.body_bytes;
     lazy_headers :=
       {[ "Authorization" := Reference.get_signature "{}" "new-secret" ]};
     lazy_data := inl (LibraryError "ParseError") |}.

Definition endpoint (settings : Settings) (request : LazyRequest)
  : world Reference.CMS -> result Response * world Reference.CMS :=
  create_courses_from_request Reference.handler Reference.get_signature
    Reference.upper Reference.Course_PAGE_template settings request "1.0".

End Lazy.

(** * Properties of the endpoint, for every library behaviour *)

Section Properties.

Set Default Proof Using "Type".

Context {Store : Type}.
Variable handler : forall c : call, Store -> result (ret_type c) * Store.
Variable get_signature : string -> string -> string.
Variable upper : string -> string.
Variable Course_PAGE_template : string.
Variable settings : Settings.

Local Abbreviation endpoint :=
  (create_courses_from_request handler get_signature upper
     Course_PAGE_template settings).
Local Abbreviation valid := (signature_is_valid get_signature settings).
Local Abbreviation run_create :=
  (create_course handler upper Course_PAGE_template).
Local Abbreviation forbidden :=
  (Build_Response (VStr "Missing authentication.") 403).
Local Abbreviation unauthorized :=
  (Build_Response (VStr "Invalid authentication.") 401).

(** ** Signature verification *)

Lemma header_eq_true (h signature : string) :
  header_eq (Some h) signature = true <-> h = signature.
Proof. simpl. apply String.eqb_eq. Qed.

Lemma not_header_true (authorization_header : option string) :
  not_header authorization_header = true <->
  authorization_header = None \/ authorization_header = Some "".
Proof.
  destruct authorization_header as [h|]; simpl.
  - rewrite String.eqb_eq. split.
    + intros ->. now right.
    + intros [H|H]; [discriminate | now injection H].
  - split; [now left | reflexivity].
Qed.

Lemma not_header_false (h : string) :
  h <> "" -> not_header (Some h) = false.
Proof. intros Hne. simpl. now apply String.eqb_neq. Qed.

Lemma valid_iff (message h : string) :
  valid (Some h) message = true <->
  exists secret, In secret (getattr_secrets settings)
                 /\ h = get_signature message secret.
Proof.
  unfold signature_is_valid. rewrite existsb_exists.
  split; intros [secret [Hin Heq]]; exists secret; split; trivial;
    now apply header_eq_true.
Qed.

(** C1.  The header passes the check of lines 121-124 exactly when it
    equals the signature of the message under one of the configured
    secrets.  So the signature made with any configured secret passes,
    and with an empty list of secrets nothing does. *)
Theorem signature_is_valid_iff (message header : string) :
  (valid (Some header) message = true <->
     exists secret, In secret (getattr_secrets settings)
                    /\ header = get_signature message secret)
  /\ (forall secret, In secret (getattr_secrets settings) ->
        valid (Some (get_signature message secret)) message = true)
  /\ (getattr_secrets settings = [] -> valid (Some header) message = false).
Proof.
  split; [apply valid_iff | split].
  - intros secret Hin. apply valid_iff. now exists secret.
  - intros Hnil. unfold signature_is_valid. now rewrite Hnil.
Qed.

(** ** The stages of the endpoint *)

Lemma endpoint_undecodable request version (w : world Store) e :
  decode_utf8 (body request) = inl e ->
  endpoint request version w = (inl e, w).
Proof.
  intros Hd. unfold create_courses_from_request, bind, lift. now rewrite Hd.
Qed.

Lemma endpoint_forbidden request version (w : world Store) message :
  decode_utf8 (body request) = inr message ->
  not_header (headers request !! "Authorization") = true ->
  endpoint request version w = (inr forbidden, w).
Proof.
  intros Hd Hh. unfold create_courses_from_request, bind, lift.
  rewrite Hd. cbv beta iota zeta. now rewrite Hh.
Qed.

Lemma endpoint_unauthorized request version (w : world Store) message :
  decode_utf8 (body request) = inr message ->
  not_header (headers request !! "Authorization") = false ->
  valid (headers request !! "Authorization") message = false ->
  endpoint request version w = (inr unauthorized, w).
Proof.
  intros Hd Hh Hv. unfold create_courses_from_request, bind, lift.
  rewrite Hd. cbv beta iota zeta. rewrite Hh, Hv. reflexivity.
Qed.

Lemma endpoint_authenticated request version (w : world Store) :
  authenticated get_signature settings request ->
  endpoint request version w
  = match run_create (data request) w with
    | (inr _, w') => (inr (Build_Response (VDict []) 200), w')
    | (inl e, w') =>
        if is_ValidationError e
        then (inr (Build_Response
                     (VDict [("error", as_serializer_error e)]) 400), w')
        else (inl e, w')
    end.
Proof.
  intros (message & Hd & Hh & Hv).
  unfold create_courses_from_request, bind, lift, try_except, ret.
  rewrite Hd. cbv beta iota zeta. rewrite Hh, Hv.
  change (negb true) with false. cbv beta iota zeta.
  destruct (create_course _ _ _ _ w) as [[e|[]] w']; [|reflexivity].
  destruct (is_ValidationError e); reflexivity.
Qed.

(** C2, as amended.  Once the body has decoded: a header that is absent or
    empty gives 403 with the text "Missing authentication."; a header
    that is not empty and that no configured secret signs gives 401 with
    the text "Invalid authentication."; the two responses differ in
    status and in body. *)
Theorem authentication_outcomes request version (w : world Store) message :
  decode_utf8 (body request) = inr message ->
  (headers request !! "Authorization" = None
   \/ headers request !! "Authorization" = Some "" ->
   endpoint request version w = (inr forbidden, w))
  /\ (forall h,
        headers request !! "Authorization" = Some h ->
        h <> "" ->
        (forall secret, In secret (getattr_secrets settings) ->
                        h <> get_signature message secret) ->
        endpoint request version w = (inr unauthorized, w))
  /\ response_status forbidden <> response_status unauthorized
  /\ response_data forbidden <> response_data unauthorized.
Proof.
  intros Hd. repeat split.
  - intros H. apply endpoint_forbidden with message; trivial.
    now apply not_header_true.
  - intros h Hh Hne Hno. apply endpoint_unauthorized with message; trivial.
    + rewrite Hh. now apply not_header_false.
    + rewrite Hh. destruct (valid (Some h) message) eqn:Hv; trivial.
      apply valid_iff in Hv as (secret & Hin & Heq).
      now destruct (Hno secret Hin).
  - discriminate.
  - discriminate.
Qed.

(** C9, as amended.  A request whose [Authorization] header is the empty
    string is answered exactly as the same request without the header;
    when its body decodes, the answer is the 403 "Missing
    authentication." response; and whatever the secrets, a response to it
    is never another one (so never the 401). *)
Theorem empty_header_like_missing_header request version (w : world Store) :
  headers request !! "Authorization" = Some "" ->
  endpoint request version w
  = endpoint (without_authorization request) version w
  /\ (forall message,
        decode_utf8 (body request) = inr message ->
        endpoint request version w = (inr forbidden, w))
  /\ (forall resp w',
        endpoint request version w = (inr resp, w') -> resp = forbidden).
Proof.
  intros Hh.
  assert (Hok : forall message,
             decode_utf8 (body request) = inr message ->
             endpoint request version w = (inr forbidden, w)).
  { intros message Hd. apply endpoint_forbidden with message; trivial.
    now rewrite Hh. }
  repeat split; trivial.
  - destruct (decode_utf8 (body request)) as [e|message] eqn:Hd.
    + now rewrite !(endpoint_undecodable _ _ _ e).
    + rewrite (Hok message eq_refl). symmetry.
      apply endpoint_forbidden with message; trivial.
      simpl. now rewrite lookup_delete_eq.
  - intros resp w' Hrun.
    destruct (decode_utf8 (body request)) as [e|message] eqn:Hd.
    + rewrite (endpoint_undecodable _ _ _ e Hd) in Hrun. discriminate.
    + rewrite (Hok message eq_refl) in Hrun. now injection Hrun as <- <-.
Qed.

(** ** Running [create_course] *)

Lemma required_fields_ok data code title organization_code (w : world Store) :
  data !! "course_code" = Some code ->
  data !! "course_title" = Some title ->
  data !! "organization_code" = Some organization_code ->
  required_fields data w = (inr (code, title, organization_code), w).
Proof.
  intros H1 H2 H3.
  unfold required_fields, try_except, bind, lift, ret, getitem.
  now rewrite H1, H2, H3.
Qed.

Lemma required_fields_missing data (w : world Store) :
  missing_field data ->
  required_fields data w = (inl (ValidationError missing_fields_detail), w).
Proof.
  unfold missing_field, required_fields, try_except, bind, lift, ret, getitem.
  destruct (data !! "course_code"); [|reflexivity].
  destruct (data !! "course_title"); [|reflexivity].
  destruct (data !! "organization_code"); [|reflexivity].
  intros [H|[H|H]]; discriminate.
Qed.

Lemma fields_or_missing (data : gmap string string) :
  missing_field data
  \/ exists code title organization_code,
       data !! "course_code" = Some code
       /\ data !! "course_title" = Some title
       /\ data !! "organization_code" = Some organization_code.
Proof.
  unfold missing_field.
  destruct (data !! "course_code") as [code|]; [|left; auto].
  destruct (data !! "course_title") as [title|]; [|left; auto].
  destruct (data !! "organization_code") as [oc|]; [|left; auto].
  right. now exists code, title, oc.
Qed.

Lemma create_course_missing data (w : world Store) :
  missing_field data ->
  run_create data w = (inl (ValidationError missing_fields_detail), w).
Proof.
  intros H. unfold create_course, bind at 1.
  now rewrite required_fields_missing.
Qed.

Lemma bind_lib {B} (c : call) (k : ret_type c -> M Store B) (w : world Store) :
  bind (lib handler c) k w
  = match handler c (store w) with
    | (inr v, s') => k v (World s' (trace w ++ [Event c (inr v)]))
    | (inl e, s') => (inl e, World s' (trace w ++ [Event c (inl e)]))
    end.
Proof.
  unfold bind, lib. destruct (handler c (store w)) as [[e|v] s']; reflexivity.
Qed.

Lemma lib_run (c : call) (w : world Store) :
  lib handler c w
  = match handler c (store w) with
    | (r, s') => (r, World s' (trace w ++ [Event c r]))
    end.
Proof. reflexivity. Qed.

(** With the three fields in the payload, [create_course] is its lines
    58-86. *)
Lemma create_course_fields data code title organization_code (w : world Store) :
  data !! "course_code" = Some code ->
  data !! "course_title" = Some title ->
  data !! "organization_code" = Some organization_code ->
  run_create data w
  = (courses_page <- lib handler (Page_objects_get_reverse_id "courses" true) ;;
     org_obj <- lib handler (Organization_objects_get (upper organization_code)) ;;
     organization_page <-
       lib handler (Page_objects_get_organization (organization_id org_obj) true) ;;
     page_obj <-
       lib handler (create_i18n_page title false None courses_page None
                      Course_PAGE_template) ;;
     course_obj <- lib handler (Course_objects_create page_obj code) ;;
     _ <- lib handler (create_page_role course_obj) ;;
     placeholder <-
       lib handler (placeholders_get (course_extended_object course_obj)
                      "course_organizations") ;;
     language <- lib handler get_language ;;
     _ <- lib handler (add_plugin language placeholder "OrganizationPlugin"
                         organization_page) ;;
     lib handler (create_permissions_for_organization course_obj org_obj)) w.
Proof.
  intros H1 H2 H3. unfold create_course, bind at 1.
  now rewrite (required_fields_ok _ _ _ _ _ H1 H2 H3).
Qed.

(** Case analysis on the answers of the libraries, call after call: one
    goal for each call that raises, one for the run that goes through. *)
Ltac answer :=
  match goal with
  | |- context [handler ?c ?s] =>
      destruct (handler c s) as [[?e|?v] ?s] eqn:?Hcall
  end.

Ltac call_step := rewrite bind_lib; cbn [store trace app]; answer; cbv beta.

Ltac last_step := rewrite lib_run; cbn [store trace app]; answer.

Ltac run_calls n :=
  lazymatch n with
  | O => last_step
  | S ?m => call_step; [ | run_calls m ]
  end.

Ltac run_cases H1 H2 H3 :=
  rewrite (create_course_fields _ _ _ _ _ H1 H2 H3); unfold start;
  run_calls (9%nat).

(** ** Validation of the payload *)

(** C3.  When one of the three keys is missing, whichever it is,
    [create_course] raises a [ValidationError] whose detail is the one
    entry [input_data] holding one message; the message names the three
    fields; and for an authenticated request the endpoint answers 400
    with the body [{"error": {"input_data": [message]}}]. *)
Theorem missing_fields_validation_error request version (s : Store) :
  missing_field (data request) ->
  run_create (data request) (start s)
  = (inl (ValidationError
            (VDict [("input_data", VList [VStr required_fields_message])])),
     start s)
  /\ names "course_code" required_fields_message = true
  /\ names "course_title" required_fields_message = true
  /\ names "organization_code" required_fields_message = true
  /\ (authenticated get_signature settings request ->
      endpoint request version (start s)
      = (inr (Build_Response
                (VDict [("error",
                         VDict [("input_data",
                                 VList [VStr required_fields_message])])])
                400),
         start s)).
Proof.
  intros Hmiss.
  split; [now apply create_course_missing|].
  repeat split.
  intros Hauth. rewrite (endpoint_authenticated _ _ _ Hauth).
  now rewrite (create_course_missing _ _ Hmiss).
Qed.

(** C6.  When a required key is missing, [create_course] ends with the
    validation error in the world it started from: the store is the same
    and no library call was made; so does the endpoint, for an
    authenticated request.  And in every run, a call that writes to the
    store comes after the three lookups of lines 58-60 have returned. *)
Theorem validation_error_leaves_store_unchanged request version
    (w : world Store) :
  (missing_field (data request) ->
   run_create (data request) w
   = (inl (ValidationError missing_fields_detail), w)
   /\ (authenticated get_signature settings request ->
       snd (endpoint request version w) = w))
  /\ (forall s r w' ev,
        run_create (data request) (start s) = (r, w') ->
        In ev (trace w') ->
        is_write ev = true ->
        exists courses_page org_obj organization_page organization_code,
          data request !! "organization_code" = Some organization_code
          /\ firstn 3 (trace w')
             = [Event (Page_objects_get_reverse_id "courses" true)
                  (inr courses_page);
                Event (Organization_objects_get (upper organization_code))
                  (inr org_obj);
                Event (Page_objects_get_organization
                         (organization_id org_obj) true)
                  (inr organization_page)]).
Proof.
  split.
  - intros Hmiss. split; [now apply create_course_missing|].
    intros Hauth. rewrite (endpoint_authenticated _ _ _ Hauth).
    now rewrite (create_course_missing _ _ Hmiss).
  - intros s r w' ev.
    destruct (fields_or_missing (data request))
      as [Hmiss|(code & title & oc & H1 & H2 & H3)].
    + rewrite (create_course_missing _ _ Hmiss).
      intros [= <- <-] [].
    + run_cases H1 H2 H3.
      all: intros [= <- <-] Hin Hw; cbn [trace In] in Hin.
      all: repeat (destruct Hin as [<-|Hin]; [try discriminate Hw|]).
      all: try contradiction.
      all: do 3 eexists; exists oc; split; [exact H3|reflexivity].
Qed.


(** ** Faults of the libraries *)

(** C4.  For an authenticated request with the three fields: a lookup
    that raises [DoesNotExist] ends the endpoint with that exception,
    and so does any library exception that is not a [ValidationError];
    the failing call is the last one made.  A 400 response comes only
    from a [ValidationError]. *)
Theorem lookup_failure_propagates request version (s : Store) r w' :
  authenticated get_signature settings request ->
  ~ missing_field (data request) ->
  endpoint request version (start s) = (r, w') ->
  (forall ev model,
     In ev (trace w') -> is_lookup ev = true ->
     ev_raised ev = Some (DoesNotExist model) ->
     r = inl (DoesNotExist model) /\ last_event (trace w') = Some ev)
  /\ (forall ev e,
        In ev (trace w') -> ev_raised ev = Some e ->
        is_ValidationError e = false ->
        r = inl e /\ last_event (trace w') = Some ev)
  /\ (forall resp,
        r = inr resp -> response_status resp = 400%Z ->
        exists ev detail,
          last_event (trace w') = Some ev
          /\ ev_raised ev = Some (ValidationError detail)).
Proof.
  intros Hauth Hfields.
  rewrite (endpoint_authenticated _ _ _ Hauth).
  destruct (fields_or_missing (data request))
    as [Hmiss|(code & title & oc & H1 & H2 & H3)]; [contradiction|].
  assert (Hgen : forall (r0 : result unit) (w0 : world Store),
    (forall ev e, In ev (trace w0) -> ev_raised ev = Some e ->
                  r0 = inl e /\ last_event (trace w0) = Some ev) ->
    (forall e, r0 = inl e -> exists ev, last_event (trace w0) = Some ev
                                        /\ ev_raised ev = Some e) ->
    match r0 with
    | inr _ => (inr (Build_Response (VDict []) 200), w0)
    | inl e =>
        if is_ValidationError e
        then (inr (Build_Response
                     (VDict [("error", as_serializer_error e)]) 400), w0)
        else (inl e, w0)
    end = (r, w') ->
    (forall ev model,
       In ev (trace w') -> is_lookup ev = true ->
       ev_raised ev = Some (DoesNotExist model) ->
       r = inl (DoesNotExist model) /\ last_event (trace w') = Some ev)
    /\ (forall ev e,
          In ev (trace w') -> ev_raised ev = Some e ->
          is_ValidationError e = false ->
          r = inl e /\ last_event (trace w') = Some ev)
    /\ (forall resp,
          r = inr resp -> response_status resp = 400%Z ->
          exists ev detail,
            last_event (trace w') = Some ev
            /\ ev_raised ev = Some (ValidationError detail))).
  { intros r0 w0 Hraised Hlast Hrun.
    assert (Hany : forall ev e,
               In ev (trace w') -> ev_raised ev = Some e ->
               is_ValidationError e = false ->
               r = inl e /\ last_event (trace w') = Some ev).
    { intros ev e Hin Hr Hnv. destruct r0 as [e0|[]].
      - destruct (is_ValidationError e0) eqn:Hv0;
          injection Hrun as <- <-;
          destruct (Hraised ev e Hin Hr) as [[= ->] Hl]; [congruence|].
        now split.
      - injection Hrun as <- <-.
        now destruct (Hraised ev e Hin Hr) as [[=] _]. }
    split; [|split; [exact Hany|]].
    - intros ev model Hin _ Hr. now apply Hany.
    - intros resp -> Hst. destruct r0 as [e0|[]].
      + destruct (Hlast e0 eq_refl) as (ev & Hl & Hr).
        destruct e0; cbn [is_ValidationError] in Hrun; try discriminate Hrun.
        injection Hrun as <- <-. now exists ev, detail.
      + injection Hrun as <- <-. discriminate Hst. }
  destruct (run_create (data request) (start s)) as [r0 w0] eqn:Hrun.
  apply Hgen; revert Hrun.
  - run_cases H1 H2 H3.
    all: intros [= <- <-] ev x Hin Hr; cbn [trace In] in Hin.
    all: repeat (destruct Hin as [<-|Hin];
                 [cbn in Hr; try discriminate Hr;
                  injection Hr as <-; split; reflexivity|]).
    all: try contradiction.
  - run_cases H1 H2 H3.
    all: intros [= <- <-] x [= <-]; eexists; split; reflexivity.
Qed.


(** ** The order of the calls *)

(** A run of [create_course] that returns has made the ten calls of
    lines 58-86, in the order of the source, each on the values the
    earlier ones returned. *)
Lemma create_course_success_trace data (s : Store) w' :
  run_create data (start s) = (inr tt, w') ->
  exists code title organization_code,
    data !! "course_code" = Some code
    /\ data !! "course_title" = Some title
    /\ data !! "organization_code" = Some organization_code
    /\ exists courses_page org_obj organization_page page_obj course_obj
              placeholder language,
         trace w'
         = [Event (Page_objects_get_reverse_id "courses" true)
              (inr courses_page);
            Event (Organization_objects_get (upper organization_code))
              (inr org_obj);
            Event (Page_objects_get_organization (organization_id org_obj) true)
              (inr organization_page);
            Event (create_i18n_page title false None courses_page None
                     Course_PAGE_template)
              (inr page_obj);
            Event (Course_objects_create page_obj code) (inr course_obj);
            Event (create_page_role course_obj) (inr tt);
            Event (placeholders_get (course_extended_object course_obj)
                     "course_organizations")
              (inr placeholder);
            Event get_language (inr language);
            Event (add_plugin language placeholder "OrganizationPlugin"
                     organization_page)
              (inr tt);
            Event (create_permissions_for_organization course_obj org_obj)
              (inr tt)].
Proof.
  destruct (fields_or_missing data)
    as [Hmiss|(code & title & oc & H1 & H2 & H3)].
  - now rewrite (create_course_missing _ _ Hmiss).
  - intros Hrun. exists code, title, oc. repeat (split; [assumption|]).
    revert Hrun. run_cases H1 H2 H3.
    all: intros [= Hr <-]; try discriminate Hr.
    destruct v4, v7, v8. cbn [trace]. repeat eexists.
Qed.

(** What [grants_follow_attach] computes. *)
Lemma grants_follow_attach_spec (evs : list event) :
  forall attached,
    grants_follow_attach attached evs = true ->
    forall pre ev post,
      evs = pre ++ ev :: post -> is_grant ev = true ->
      attached = true \/ exists ev', In ev' pre /\ is_attach ev' = true.
Proof.
  induction evs as [|ev0 evs IH]; intros attached Hok pre ev post Heq Hg.
  - now destruct pre.
  - cbn [grants_follow_attach] in Hok.
    apply andb_true_iff in Hok as [Hhere Hrest].
    destruct pre as [|p pre]; cbn [app] in Heq; injection Heq as -> ->.
    + rewrite Hg in Hhere. now left.
    + destruct (IH _ Hrest pre ev post eq_refl Hg) as [Hatt|(ev' & Hin & Ha)].
      * apply orb_true_iff in Hatt as [Hatt|Hatt]; [now left|].
        right. exists p. split; [now left|assumption].
      * right. exists ev'. split; [now right|assumption].
Qed.

(** C7.  In a run of [create_course] that returns, the trace ends with
    the lookup of the "course_organizations" placeholder of the course's
    page, the plugin added to that placeholder for the organization's
    page, and then the grant of the course's permissions to the
    organization.  And in every run, returning or not, a grant is
    preceded by an organization plugin that was attached. *)
Theorem organization_linked_before_permissions data (s : Store) r w' :
  run_create data (start s) = (r, w') ->
  (r = inr tt ->
   exists pre course_obj org_obj organization_page placeholder language,
     trace w'
     = pre ++
       [Event (placeholders_get (course_extended_object course_obj)
                 "course_organizations")
          (inr placeholder);
        Event get_language (inr language);
        Event (add_plugin language placeholder "OrganizationPlugin"
                 organization_page)
          (inr tt);
        Event (create_permissions_for_organization course_obj org_obj)
          (inr tt)]
     /\ In (Event (Page_objects_get_organization (organization_id org_obj) true)
              (inr organization_page))
           pre)
  /\ (forall pre ev post,
        trace w' = pre ++ ev :: post -> is_grant ev = true ->
        exists ev', In ev' pre /\ is_attach ev' = true).
Proof.
  intros Hrun. split.
  - intros ->.
    destruct (create_course_success_trace _ _ _ Hrun)
      as (code & title & oc & _ & _ & _ & courses_page & org_obj
          & organization_page & page_obj & course_obj & placeholder
          & language & ->).
    eexists [_; _; _; _; _; _].
    exists course_obj, org_obj, organization_page, placeholder, language.
    split; [reflexivity|]. cbn [In]. auto.
  - intros pre ev post Heq Hg.
    assert (Hok : grants_follow_attach false (trace w') = true).
    { clear Heq. revert Hrun.
      destruct (fields_or_missing data)
        as [Hmiss|(code & title & oc & H1 & H2 & H3)].
      - rewrite (create_course_missing _ _ Hmiss). now intros [= <- <-].
      - run_cases H1 H2 H3.
        all: intros [= <- <-]; vm_compute; reflexivity. }
    destruct (grants_follow_attach_spec _ _ Hok _ _ _ Heq Hg) as [|]; trivial.
    discriminate.
Qed.

(** C8, as amended.  In a run of [create_course] that returns, the page
    and the course are created by exactly two calls: [create_i18n_page]
    with the payload's title, out of the navigation, no language list,
    the page found under the reverse id "courses" (its draft) as parent,
    no reverse id, and the template of the course pages; then
    [Course.objects.create] on the page just created, handed the
    payload's [course_code] as it came.  What the course then stores is
    the library's to decide. *)
Theorem course_code_passed_verbatim data (s : Store) w' :
  run_create data (start s) = (inr tt, w') ->
  exists code title courses_page page_obj course_obj,
    data !! "course_code" = Some code
    /\ data !! "course_title" = Some title
    /\ In (Event (Page_objects_get_reverse_id "courses" true) (inr courses_page))
          (trace w')
    /\ List.filter is_creation (trace w')
       = [Event (create_i18n_page title false None courses_page None
                   Course_PAGE_template)
            (inr page_obj);
          Event (Course_objects_create page_obj code) (inr course_obj)].
Proof.
  intros Hrun.
  destruct (create_course_success_trace _ _ _ Hrun)
    as (code & title & oc & H1 & H2 & _ & courses_page & org_obj
        & organization_page & page_obj & course_obj & placeholder
        & language & ->).
  exists code, title, courses_page, page_obj, course_obj.
  repeat (split; [assumption|]). split; [now left|reflexivity].
Qed.

End Properties.

(** * The endpoint on the reference content store *)

Section OnReferenceStore.

Set Default Proof Using "Type".

Variable get_signature : string -> string -> string.
Variable upper : string -> string.
Variable Course_PAGE_template : string.
Variable settings : Settings.


Lemma slots_of_NoDup table template :
  List.NoDup (Reference.slots_of table template).
Proof.
  induction table as [|[t slots] table IH]; cbn [Reference.slots_of].
  - constructor.
  - destruct (String.eqb t template); [apply List.NoDup_nodup | exact IH].
Qed.

Lemma filter_absent_slot (page : Page) (slot : string) (slots : list string) :
  ~ In slot slots ->
  forall first,
    List.filter (Reference.is_slot_of page slot)
      (map (Reference.placeholder_on (page_id page))
           (combine (seq first (length slots)) slots)) = [].
Proof.
  induction slots as [|x slots IH]; intros Hnotin first; [reflexivity|].
  cbn [length seq combine map List.filter].
  unfold Reference.is_slot_of at 1.
  cbn [Reference.placeholder_on placeholder_page placeholder_slot snd].
  destruct (String.eqb_spec x slot) as [->|Hne].
  - destruct Hnotin. now left.
  - rewrite andb_false_r. apply IH. intros Hin. apply Hnotin. now right.
Qed.

(** A new page has exactly one placeholder for a slot of its template. *)
Lemma filter_new_placeholder (page : Page) (slot : string)
    (slots : list string) :
  List.NoDup slots ->
  In slot slots ->
  forall first,
  exists id,
    List.filter (Reference.is_slot_of page slot)
      (map (Reference.placeholder_on (page_id page))
           (combine (seq first (length slots)) slots))
    = [Reference.placeholder_on (page_id page) (id, slot)].
Proof.
  induction slots as [|x slots IH]; intros Hnd Hin first; [contradiction|].
  apply List.NoDup_cons_iff in Hnd as [Hnotin Hnd].
  cbn [length seq combine map List.filter].
  unfold Reference.is_slot_of at 1.
  cbn [Reference.placeholder_on placeholder_page placeholder_slot snd].
  rewrite Nat.eqb_refl. cbn [andb].
  destruct (String.eqb_spec x slot) as [->|Hne].
  - exists first. f_equal. now apply filter_absent_slot.
  - destruct Hin as [Heq|Hin]; [contradiction|]. now apply IH.
Qed.

Lemma filter_other_page (page : Page) (slot : string)
    (phs : list Placeholder) :
  (forall ph, In ph phs -> placeholder_page ph <> page_id page) ->
  List.filter (Reference.is_slot_of page slot) phs = [].
Proof.
  induction phs as [|ph phs IH]; intros Hfresh; [reflexivity|].
  cbn [List.filter]. unfold Reference.is_slot_of at 1.
  destruct (Nat.eqb_spec (placeholder_page ph) (page_id page)) as [Heq|Hne].
  - destruct (Hfresh ph); [now left|assumption].
  - cbn [andb]. apply IH. intros ph' Hin. apply Hfresh. now right.
Qed.

Lemma no_course_with_code (cs : list Course) (code : string) :
  (forall c, In c cs -> course_code c <> code) ->
  existsb (fun c => String.eqb (course_code c) code) cs = false.
Proof.
  induction cs as [|c cs IH]; intros H; [reflexivity|].
  cbn [existsb]. rewrite IH by (intros c' Hin; apply H; now right).
  rewrite orb_false_r. apply String.eqb_neq. apply H. now left.
Qed.



End OnReferenceStore.

(** * The theorems on the small site of [Reference] *)

(** A request signed with the newer of the two secrets is authenticated. *)
Lemma signed_is_authenticated (data : gmap string string) :
  authenticated Reference.get_signature Reference.secrets
    (Reference.signed data).
Proof. exists "{}". repeat split. Qed.

(** The signature made with a configured secret passes the check. *)
Lemma signature_is_valid_iff_witness :
  signature_is_valid Reference.get_signature Reference.secrets
    (Some (Reference.get_signature "{}" "new-secret")) "{}" = true.
Proof.
  apply (proj1 (proj2 (signature_is_valid_iff Reference.get_signature
                         Reference.secrets "{}" "unsigned"))).
  vm_compute. tauto.
Defined.

(** C2 as stated fails: the header is present, no configured secret signs
    the body with it, and the answer is the 403 response, not the 401. *)
Lemma empty_header_answered_forbidden :
  headers Reference.empty_header_request !! "Authorization" = Some ""
  /\ decode_utf8 (body Reference.empty_header_request) = inr "{}"
  /\ signature_is_valid Reference.get_signature Reference.secrets
       (Some "") "{}" = false
  /\ Reference.endpoint Reference.secrets Reference.empty_header_request
       (start Reference.site)
     = (inr (Build_Response (VStr "Missing authentication.") 403),
        start Reference.site).
Proof. repeat split. Qed.

(** Without a header too, a body that is not UTF-8 raises: the 403 and
    the 401 are outcomes of the requests whose body decodes. *)
Lemma absent_header_on_undecodable_body :
  headers (without_authorization Reference.undecodable_request)
    !! "Authorization" = None
  /\ Reference.endpoint Reference.secrets
       (without_authorization Reference.undecodable_request)
       (start Reference.site)
     = (inl UnicodeDecodeError, start Reference.site).
Proof. repeat split. Qed.

(** The empty header gets the 403, a forged one the 401. *)
Lemma authentication_outcomes_witness :
  Reference.endpoint Reference.secrets Reference.empty_header_request
    (start Reference.site)
  = (inr (Build_Response (VStr "Missing authentication.") 403),
     start Reference.site)
  /\ Reference.endpoint Reference.secrets Reference.forged_request
       (start Reference.site)
     = (inr (Build_Response (VStr "Invalid authentication.") 401),
        start Reference.site).
Proof.
  split.
  - apply (proj1 (authentication_outcomes Reference.handler
                    Reference.get_signature Reference.upper
                    Reference.Course_PAGE_template Reference.secrets
                    Reference.empty_header_request "1.0"
                    (start Reference.site) "{}" eq_refl)).
    right. reflexivity.
  - apply (proj1 (proj2 (authentication_outcomes Reference.handler
                    Reference.get_signature Reference.upper
                    Reference.Course_PAGE_template Reference.secrets
                    Reference.forged_request "1.0"
                    (start Reference.site) "{}" eq_refl))
             (Reference.get_signature "{}" "guessed-secret")).
    + reflexivity.
    + discriminate.
    + intros secret [<-|[<-|[]]]; discriminate.
Defined.

(** C9 as stated fails: with the empty header on a body that is not
    UTF-8, the endpoint raises before it looks at the headers, and gives
    no 403 response. *)
Lemma empty_header_on_undecodable_body :
  headers Reference.undecodable_request !! "Authorization" = Some ""
  /\ Reference.endpoint Reference.secrets Reference.undecodable_request
       (start Reference.site)
     = (inl UnicodeDecodeError, start Reference.site).
Proof. repeat split. Qed.

(** The empty header on a body that decodes gets the 403. *)
Lemma empty_header_like_missing_header_witness :
  Reference.endpoint Reference.secrets Reference.empty_header_request
    (start Reference.site)
  = (inr (Build_Response (VStr "Missing authentication.") 403),
     start Reference.site).
Proof.
  apply (proj1 (proj2 (empty_header_like_missing_header Reference.handler
                         Reference.get_signature Reference.upper
                         Reference.Course_PAGE_template Reference.secrets
                         Reference.empty_header_request "1.0"
                         (start Reference.site) eq_refl))
           "{}").
  reflexivity.
Defined.

(** A signed payload without [organization_code] gets the 400. *)
Lemma missing_fields_validation_error_witness :
  Reference.endpoint Reference.secrets
    (Reference.signed Reference.payload_without_organization)
    (start Reference.site)
  = (inr (Build_Response
            (VDict [("error",
                     VDict [("input_data",
                             VList [VStr required_fields_message])])])
            400),
     start Reference.site).
Proof.
  apply (missing_fields_validation_error Reference.handler
           Reference.get_signature Reference.upper
           Reference.Course_PAGE_template Reference.secrets
           (Reference.signed Reference.payload_without_organization) "1.0"
           Reference.site).
  - right. right. reflexivity.
  - apply signed_is_authenticated.
Defined.

(** The payload without [organization_code] leaves the site as it was. *)
Lemma validation_error_leaves_store_unchanged_witness :
  Reference.run_create_course Reference.payload_without_organization
    (start Reference.site)
  = (inl (ValidationError missing_fields_detail), start Reference.site).
Proof.
  apply (proj1 (validation_error_leaves_store_unchanged Reference.handler
                  Reference.get_signature Reference.upper
                  Reference.Course_PAGE_template Reference.secrets
                  (Reference.signed Reference.payload_without_organization)
                  "1.0" (start Reference.site))).
  right. right. reflexivity.
Defined.

(** An organization code that the site does not know: the endpoint raises
    [Organization.DoesNotExist]. *)
Lemma lookup_failure_propagates_witness :
  fst (Reference.endpoint Reference.secrets
         (Reference.signed Reference.payload_unknown_organization)
         (start Reference.site))
  = inl (DoesNotExist "Organization").
Proof.
  refine (proj1
    (proj1 (lookup_failure_propagates Reference.handler
              Reference.get_signature Reference.upper
              Reference.Course_PAGE_template Reference.secrets
              (Reference.signed Reference.payload_unknown_organization) "1.0"
              Reference.site _ _
              (signed_is_authenticated _) _ (surjective_pairing _))
       (Event (Organization_objects_get "NOWHERE")
          (inl (DoesNotExist "Organization")))
       "Organization" _ eq_refl eq_refl)).
  - intros [H|[H|H]]; discriminate H.
  - vm_compute. tauto.
Defined.



(** Two draft pages have the reverse id "courses": line 58 raises. *)
Lemma two_courses_roots_raise :
  fst (Reference.endpoint Reference.secrets Reference.signed_request
         (start Variants.two_courses_roots))
  = inl (MultipleObjectsReturned "Page").
Proof. vm_compute. reflexivity. Qed.

(** The organization's code is stored as Org123, which the payload's
    org123 equals up to case: the lookup by the upper-cased code finds
    nothing. *)
Lemma mixed_case_organization_not_found :
  Reference.upper "org123"
  = Reference.upper (organization_code Variants.org123_mixed_case)
  /\ fst (Reference.endpoint Reference.secrets Reference.signed_request
            (start Variants.mixed_case_organization))
     = inl (DoesNotExist "Organization").
Proof. split; vm_compute; reflexivity. Qed.

(** The organization has no draft page: line 60 raises. *)
Lemma organization_without_draft_page_raises :
  fst (Reference.endpoint Reference.secrets Reference.signed_request
         (start Variants.organization_without_draft_page))
  = inl (DoesNotExist "Page").
Proof. vm_compute. reflexivity. Qed.

(** The course template declares no "course_organizations" slot: line 77
    raises, after the page and the course were created. *)
Lemma missing_slot_raises :
  fst (Reference.endpoint Reference.secrets Reference.signed_request
         (start Variants.without_slot))
  = inl (DoesNotExist "Placeholder")
  /\ map course_code
       (Reference.courses
          (store (snd (Reference.endpoint Reference.secrets
                         Reference.signed_request
                         (start Variants.without_slot)))))
     = ["cs101"].
Proof. split; vm_compute; reflexivity. Qed.

(** A placeholder of the slot is already filed under the id the new page
    gets: line 77 finds two. *)
Lemma stale_placeholder_raises :
  fst (Reference.endpoint Reference.secrets Reference.signed_request
         (start Variants.stale_placeholder))
  = inl (MultipleObjectsReturned "Placeholder").
Proof. vm_compute. reflexivity. Qed.

(** The course code is taken: [Course.objects.create] raises. *)
Lemma taken_course_code_raises :
  fst (Reference.endpoint Reference.secrets Reference.signed_request
         (start Samples.taken_site))
  = inl (LibraryError "IntegrityError").
Proof. vm_compute. reflexivity. Qed.

(** The organization is published: the store holds it twice, once for
    the draft page and once for the public page, under the one code.
    Line 59 asks for the code alone, where lines 58 and 60 ask for the
    draft; it finds both rows and raises, and no course is created. *)
Lemma published_organization_found_twice :
  List.filter (Reference.has_code (Reference.upper "org123"))
    (Reference.organizations Variants.published_organization)
  = [Reference.org123; Variants.org123_public]
  /\ List.filter
       (Reference.is_page_of Variants.published_organization
          (organization_id Reference.org123) true)
       (Reference.pages Variants.published_organization)
     = [Reference.org_page]
  /\ Reference.endpoint Reference.secrets Reference.signed_request
       (start Variants.published_organization)
     = (inl (MultipleObjectsReturned "Organization"),
        World Variants.published_organization
          [Event (Page_objects_get_reverse_id "courses" true)
             (inr Reference.courses_root);
           Event (Organization_objects_get "ORG123")
             (inl (MultipleObjectsReturned "Organization"))]).
Proof. repeat split; vm_compute; reflexivity. Qed.

(** On the site, the run of [create_course] returns, with the plugin
    before the grant. *)
Lemma organization_linked_before_permissions_witness :
  exists pre course_obj org_obj organization_page placeholder language,
    trace (snd (Reference.run_create_course Reference.payload
                  (start Reference.site)))
    = pre ++
      [Event (placeholders_get (course_extended_object course_obj)
                "course_organizations")
         (inr placeholder);
       Event get_language (inr language);
       Event (add_plugin language placeholder "OrganizationPlugin"
                organization_page)
         (inr tt);
       Event (create_permissions_for_organization course_obj org_obj)
         (inr tt)]
    /\ In (Event (Page_objects_get_organization (organization_id org_obj) true)
             (inr organization_page))
          pre.
Proof.
  apply (proj1 (organization_linked_before_permissions Reference.handler
                  Reference.upper Reference.Course_PAGE_template
                  Reference.payload Reference.site _ _
                  (surjective_pairing _))).
  reflexivity.
Defined.

(** On the site, the two creation calls of the run. *)
Lemma course_code_passed_verbatim_witness :
  exists code title courses_page page_obj course_obj,
    Reference.payload !! "course_code" = Some code
    /\ Reference.payload !! "course_title" = Some title
    /\ In (Event (Page_objects_get_reverse_id "courses" true)
             (inr courses_page))
          (trace (snd (Reference.run_create_course Reference.payload
                         (start Reference.site))))
    /\ List.filter is_creation
         (trace (snd (Reference.run_create_course Reference.payload
                        (start Reference.site))))
       = [Event (create_i18n_page title false None courses_page None
                   Reference.Course_PAGE_template)
            (inr page_obj);
          Event (Course_objects_create page_obj code) (inr course_obj)].
Proof.
  apply (course_code_passed_verbatim Reference.handler Reference.upper
           Reference.Course_PAGE_template Reference.payload Reference.site).
  vm_compute. reflexivity.
Defined.

(** On a store that normalizes the codes of its courses, as richie does
    when a course is saved: the payload says cs101, [create_course]
    hands cs101 to [Course.objects.create] and returns, and the course
    object, as returned and as stored, has the code CS101. *)
Lemma course_code_normalized_on_save :
  Reference.payload !! "course_code" = Some "cs101"
  /\ fst (Normalizing.run_create_course Reference.payload
            (start Reference.site)) = inr tt
  /\ (exists page_obj course_obj,
        In (Event (Course_objects_create page_obj "cs101") (inr course_obj))
           (trace (snd (Normalizing.run_create_course Reference.payload
                          (start Reference.site))))
        /\ course_code course_obj = "CS101")
  /\ map course_code
         (Reference.courses
            (store (snd (Normalizing.run_create_course Reference.payload
                           (start Reference.site)))))
     = ["CS101"]
  /\ "CS101" <> "cs101".
Proof.
  split; [reflexivity|]. split; [vm_compute; reflexivity|].
  split; [|split; [vm_compute; reflexivity|discriminate]].
  eexists _, _.
  split; [vm_compute; do 4 right; left; reflexivity|reflexivity].
Qed.


(** * Properties of the rest of the repository *)

(** ** Regular expressions *)

Lemma append_nil_l (s : string) : "" +:+ s = s.
Proof. reflexivity. Qed.

Lemma append_cons (c : ascii) (d s : string) :
  String c d +:+ s = String c (d +:+ s).
Proof. reflexivity. Qed.

Lemma append_assoc (a b c : string) : (a +:+ b) +:+ c = a +:+ (b +:+ c).
Proof.
  induction a as [|x a IH]; rewrite ?append_nil_l, ?append_cons; [trivial|].
  now rewrite IH.
Qed.

Lemma strip_prefix_spec (p s s' : string) :
  Re.strip_prefix p s = Some s' <-> s = p +:+ s'.
Proof.
  revert s. induction p as [|a p IH]; intros s; cbn [Re.strip_prefix];
    rewrite ?append_nil_l, ?append_cons.
  - split; [now intros [= ->] | now intros ->].
  - destruct s as [|b s].
    + split; discriminate.
    + destruct (Ascii.eqb_spec a b) as [->|Hne].
      * rewrite IH. split; [now intros -> | now intros [= ->]].
      * split; [discriminate | intros [= -> _]; contradiction].
Qed.

Lemma append_cancel_l (p a b : string) : p +:+ a = p +:+ b -> a = b.
Proof.
  induction p as [|c p IH]; rewrite ?append_nil_l, ?append_cons; [trivial|].
  intros [= H]. now apply IH.
Qed.

Lemma run_Lits (p : string) pos s (k : Re.continuation) :
  Re.run (Re.Lits p) pos s k = true <->
  exists s', s = p +:+ s' /\ k (pos + String.length p) s' = true.
Proof.
  cbn [Re.run]. destruct (Re.strip_prefix p s) as [s'|] eqn:Hp.
  - apply strip_prefix_spec in Hp. split.
    + intros Hk. now exists s'.
    + intros (s'' & Heq & Hk). rewrite Heq in Hp.
      now rewrite <- (append_cancel_l _ _ _ Hp).
  - split; [discriminate|]. intros (s' & Heq & _).
    apply strip_prefix_spec in Heq. congruence.
Qed.

Lemma star_char (P : ascii -> bool) (fuel : nat) :
  forall pos s (k : Re.continuation),
    String.length s <= fuel ->
    Re.star (Re.char_step P) fuel pos s k = true <->
    exists d s',
      s = d +:+ s' /\ Re.all_in P d = true
      /\ k (pos + String.length d) s' = true.
Proof.
  induction fuel as [|fuel IH]; intros pos s k Hlen.
  - destruct s; [|cbn in Hlen; lia]. cbn [Re.star]. split.
    + intros Hk. exists "", "". rewrite Nat.add_0_r. auto.
    + intros (d & s' & Heq & _ & Hk).
      destruct d; [|discriminate]. rewrite append_nil_l in Heq. subst s'.
      now rewrite Nat.add_0_r in Hk.
  - cbn [Re.star]. rewrite orb_true_iff. split.
    + intros [Hstep|Hk].
      * destruct s as [|c s]; [discriminate|]. cbn [Re.char_step] in Hstep.
        apply andb_true_iff in Hstep as [Hc Hrest].
        apply andb_true_iff in Hrest as [_ Hrest].
        apply IH in Hrest as (d & s' & -> & Hd & Hk);
          [|cbn in Hlen; lia].
        exists (String c d), s'. cbn [Re.all_in String.length].
        rewrite Hc, Hd. repeat split.
        now rewrite Nat.add_succ_r.
      * exists "", s. rewrite Nat.add_0_r. auto.
    + intros (d & s' & -> & Hd & Hk). destruct d as [|c d].
      * right. now rewrite Nat.add_0_r in Hk.
      * left. rewrite append_cons in *.
        cbn [Re.char_step Re.all_in String.length] in *.
        apply andb_true_iff in Hd as [Hc Hd]. rewrite Hc. cbn [andb].
        apply andb_true_iff. split; [apply Nat.ltb_lt; lia|].
        apply IH; [lia|]. exists d, s'. repeat split; trivial.
        now rewrite Nat.add_succ_r in Hk.
Qed.

Lemma run_Star_Any pos s (k : Re.continuation) :
  Re.run (Re.Star Re.Any) pos s k = true <->
  exists d s',
    s = d +:+ s' /\ Re.all_in Re.not_newline d = true
    /\ k (pos + String.length d) s' = true.
Proof. apply (star_char Re.not_newline). lia. Qed.

Lemma run_Star_Range lo hi pos s (k : Re.continuation) :
  Re.run (Re.Star (Re.Range lo hi)) pos s k = true <->
  exists d s',
    s = d +:+ s' /\ Re.all_in (Re.in_class lo hi) d = true
    /\ k (pos + String.length d) s' = true.
Proof. apply (star_char (Re.in_class lo hi)). lia. Qed.

Lemma at_end_spec (s : string) :
  Re.at_end s = true <-> s = "" \/ s = String Re.newline "".
Proof.
  destruct s as [|c [|c' s]]; cbn [Re.at_end].
  - split; auto.
  - rewrite Ascii.eqb_eq. split.
    + intros ->. now right.
    + intros [H|H]; [discriminate | now injection H].
  - split; [discriminate | intros [H|H]; discriminate].
Qed.

Lemma run_Seq (a b : Re.regex) pos s (k : Re.continuation) :
  Re.run (Re.Seq a b) pos s k
  = Re.run a pos s (fun pos' s' => Re.run b pos' s' k).
Proof. reflexivity. Qed.

Lemma run_Bol pos s (k : Re.continuation) :
  Re.run Re.Bol pos s k = true <-> pos = 0 /\ k pos s = true.
Proof. cbn [Re.run]. now rewrite andb_true_iff, Nat.eqb_eq. Qed.

Lemma run_Eol pos s (k : Re.continuation) :
  Re.run Re.Eol pos s k = true <->
  (s = "" \/ s = String Re.newline "") /\ k pos s = true.
Proof. cbn [Re.run]. now rewrite andb_true_iff, at_end_spec. Qed.

(** X1.  The pattern of line 10, under [match], accepts exactly the
    paths made of "richie/js/", any number of digits, a dot, any
    characters but a newline, and ".index.js", with at most one newline
    after it. *)
Theorem ignored_static_files (path : string) :
  Re.re_match Storage.STATIC_POSTPROCESS_IGNORE_REGEX path = true <->
  exists digits rest nl,
    path = "richie/js/" +:+ (digits +:+ ("." +:+ (rest +:+ (".index.js" +:+ nl))))
    /\ Re.all_in (Re.in_class "0" "9") digits = true
    /\ Re.all_in Re.not_newline rest = true
    /\ (nl = "" \/ nl = String Re.newline "").
Proof.
  unfold Re.re_match, Storage.STATIC_POSTPROCESS_IGNORE_REGEX.
  cbn [Re.concat]. split.
  - intros H.
    rewrite run_Seq in H. apply run_Bol in H as [_ H].
    rewrite run_Seq in H. apply run_Lits in H as (s1 & -> & H).
    rewrite run_Seq in H.
    apply run_Star_Range in H as (digits & s2 & -> & Hd & H).
    rewrite run_Seq in H. apply run_Lits in H as (s3 & -> & H).
    rewrite run_Seq in H.
    apply run_Star_Any in H as (rest & s4 & -> & Hr & H).
    rewrite run_Seq in H. apply run_Lits in H as (nl & -> & H).
    apply run_Eol in H as [Hnl _].
    now exists digits, rest, nl.
  - intros (digits & rest & nl & -> & Hd & Hr & Hnl).
    rewrite run_Seq. apply run_Bol. split; [reflexivity|].
    rewrite run_Seq. apply run_Lits. eexists. split; [reflexivity|].
    rewrite run_Seq. apply run_Star_Range. exists digits. eexists.
    split; [reflexivity|]. split; [assumption|].
    rewrite run_Seq. apply run_Lits. eexists. split; [reflexivity|].
    rewrite run_Seq. apply run_Star_Any. exists rest. eexists.
    split; [reflexivity|]. split; [assumption|].
    rewrite run_Seq. apply run_Lits. exists nl. split; [reflexivity|].
    apply run_Eol. now split.
Qed.

Lemma run_Opt (r : Re.regex) pos s (k : Re.continuation) :
  Re.run (Re.Opt r) pos s k = Re.run r pos s k || k pos s.
Proof. reflexivity. Qed.

Lemma search_from_spec (r : Re.regex) :
  forall s pos,
    Re.search_from r pos s = true <->
    exists pre s',
      s = pre +:+ s'
      /\ Re.run r (pos + String.length pre) s' (fun _ _ => true) = true.
Proof.
  induction s as [|c s IH]; intros pos; cbn [Re.search_from].
  - rewrite orb_false_r. split.
    + intros H. exists "", "". now rewrite Nat.add_0_r.
    + intros (pre & s' & Heq & H). destruct pre; [|discriminate].
      rewrite append_nil_l in Heq. subst s'. now rewrite Nat.add_0_r in H.
  - rewrite orb_true_iff, IH. split.
    + intros [H|(pre & s' & -> & H)].
      * exists "", (String c s). now rewrite Nat.add_0_r.
      * exists (String c pre), s'. split; [reflexivity|].
        cbn [String.length]. now rewrite Nat.add_succ_r.
    + intros (pre & s' & Heq & H). destruct pre as [|c' pre].
      * rewrite append_nil_l in Heq. subst s'. left.
        now rewrite Nat.add_0_r in H.
      * rewrite append_cons in Heq. injection Heq as -> ->. right.
        exists pre, s'. split; [reflexivity|].
        cbn [String.length] in H. now rewrite Nat.add_succ_r in H.
Qed.

(** What the route pattern consumes, from any position. *)
Lemma run_unesco_course_sync pos s (k : Re.continuation) :
  Re.run Urls.unesco_course_sync pos s k = true <->
  exists slash nl,
    s = "unesco-course-sync" +:+ (slash +:+ nl)
    /\ (slash = "" \/ slash = "/")
    /\ (nl = "" \/ nl = String Re.newline "")
    /\ k (pos + String.length "unesco-course-sync" + String.length slash) nl
       = true.
Proof.
  unfold Urls.unesco_course_sync. cbn [Re.concat]. split.
  - intros H.
    rewrite run_Seq in H. apply run_Lits in H as (s1 & -> & H).
    rewrite run_Seq, run_Opt in H. apply orb_true_iff in H as [H|H].
    + apply run_Lits in H as (nl & -> & H). apply run_Eol in H as [Hnl H].
      exists "/", nl. auto.
    + apply run_Eol in H as [Hnl H]. exists "", s1.
      rewrite append_nil_l, Nat.add_0_r. auto.
  - intros (slash & nl & -> & Hs & Hnl & H).
    rewrite run_Seq. apply run_Lits. eexists. split; [reflexivity|].
    rewrite run_Seq, run_Opt. apply orb_true_iff.
    destruct Hs as [->| ->].
    + right. rewrite append_nil_l. apply run_Eol. split; [assumption|].
      now rewrite Nat.add_0_r in H.
    + left. apply run_Lits. exists nl. split; [reflexivity|].
      apply run_Eol. now split.
Qed.

(** X2.  The pattern of the route has no anchor at its start: under
    [search] it accepts every path that ends with "unesco-course-sync",
    with or without a last slash (and at most one newline after it);
    under [fullmatch] it accepts the two paths "unesco-course-sync" and
    "unesco-course-sync/" only. *)
Theorem route_pattern (path : string) :
  (Re.re_search Urls.unesco_course_sync path = true <->
   exists before slash nl,
     path = before +:+ ("unesco-course-sync" +:+ (slash +:+ nl))
     /\ (slash = "" \/ slash = "/")
     /\ (nl = "" \/ nl = String Re.newline ""))
  /\ (Re.re_fullmatch Urls.unesco_course_sync path = true <->
      path = "unesco-course-sync" \/ path = "unesco-course-sync/").
Proof.
  split.
  - unfold Re.re_search. rewrite search_from_spec. split.
    + intros (before & s' & -> & H).
      apply run_unesco_course_sync in H as (slash & nl & -> & Hs & Hnl & _).
      now exists before, slash, nl.
    + intros (before & slash & nl & -> & Hs & Hnl).
      exists before. eexists. split; [reflexivity|].
      apply run_unesco_course_sync. now exists slash, nl.
  - unfold Re.re_fullmatch. rewrite run_unesco_course_sync. split.
    + intros (slash & nl & -> & Hs & Hnl & H).
      destruct nl; [|discriminate].
      destruct Hs as [->| ->]; [now left | now right].
    + intros [->| ->].
      * exists "", "". auto.
      * exists "/", "". auto.
Qed.

(** * Static files *)

Section StorageProperties.

Set Default Proof Using "Type".

Context {V Y Options : Type}.
Variable super_post_process :
  list (string * V) -> bool -> Options -> result (list Y).
Variable super_url : string -> bool -> result string.
Variable settings : Storage.Settings.

Lemma od_getitem_In (d : list (string * V)) (key : string) (v : V) :
  List.NoDup (map fst d) -> In (key, v) d ->
  Storage.od_getitem d key = inr v.
Proof.
  induction d as [|[k x] d IH]; intros Hnd Hin; [contradiction|].
  cbn [map fst] in Hnd. apply List.NoDup_cons_iff in Hnd as [Hnotin Hnd].
  cbn [Storage.od_getitem]. destruct Hin as [[= -> ->]|Hin].
  - now rewrite String.eqb_refl.
  - destruct (String.eqb_spec k key) as [->|Hne]; [|now apply IH].
    destruct Hnotin. change key with (fst (key, v)). now apply in_map.
Qed.

Lemma od_setitem_new (d : list (string * V)) (key : string) (v : V) :
  ~ In key (map fst d) -> Storage.od_setitem d key v = d ++ [(key, v)].
Proof.
  induction d as [|[k x] d IH]; intros Hnotin; [reflexivity|].
  cbn [Storage.od_setitem app]. cbn [map fst In] in Hnotin.
  destruct (String.eqb_spec k key) as [->|Hne].
  - destruct Hnotin. now left.
  - f_equal. apply IH. intros Hin. apply Hnotin. now right.
Qed.

Lemma filter_loop_spec (paths : list (string * V)) :
  List.NoDup (map fst paths) ->
  forall rest done,
    paths = done ++ rest ->
    Storage.filter_loop paths (map fst rest) (List.filter Storage.kept done)
    = inr (List.filter Storage.kept paths).
Proof.
  intros Hnd. induction rest as [|[path v] rest IH]; intros done Heq.
  - rewrite app_nil_r in Heq. now subst done.
  - cbn [map fst Storage.filter_loop].
    assert (Hin : In (path, v) paths).
    { rewrite Heq. apply in_or_app. right. now left. }
    assert (Hnew : ~ In path (map fst (List.filter Storage.kept done))).
    { intros Hk. apply in_map_iff in Hk as ([k x] & Hfst & Hk).
      cbn [fst] in Hfst. subst k. apply filter_In in Hk as [Hk _].
      rewrite Heq, map_app in Hnd. cbn [map fst] in Hnd.
      apply List.NoDup_remove_2 in Hnd. apply Hnd. apply in_or_app. left.
      change path with (fst (path, x)). now apply in_map. }
    specialize (IH (done ++ [(path, v)])).
    rewrite <- app_assoc in IH. specialize (IH Heq).
    rewrite List.filter_app in IH. cbn [List.filter] in IH.
    unfold Storage.kept at 2 in IH. cbn [fst] in IH.
    destruct (Re.re_match Storage.STATIC_POSTPROCESS_IGNORE_REGEX path).
    + cbn [negb] in *. now rewrite app_nil_r in IH.
    + cbn [negb] in *. rewrite (od_getitem_In _ _ _ Hnd Hin).
      now rewrite (od_setitem_new _ _ _ Hnew).
Qed.

(** X3.  On a dict of paths (no key twice), [post_process] hands the
    parent's [post_process] the items whose path the pattern does not
    match, in their order and with their values, with the same [dry_run]
    and options, and yields what the parent yields. *)
Theorem post_process_filters (paths : list (string * V)) dry_run options :
  List.NoDup (map fst paths) ->
  Storage.post_process super_post_process paths dry_run options
  = super_post_process (List.filter Storage.kept paths) dry_run options.
Proof.
  intros Hnd. unfold Storage.post_process, Storage.filtered_paths.
  pose proof (filter_loop_spec paths Hnd paths [] eq_refl) as Hloop.
  cbn [List.filter] in Hloop. now rewrite Hloop.
Qed.

(** X4.  [url] only ever prepends: an exception of the parent's [url]
    goes through; otherwise the result is a prefix followed by the
    parent's url, the prefix being empty when [CDN_DOMAIN] is not
    defined or is the empty string, and "//" and the domain otherwise.
    So two names get the same url only when the parent gives them the
    same url. *)
Theorem url_prepends_cdn (name : string) (force : bool) :
  (forall e, super_url name force = inl e ->
             Storage.url super_url settings name force = inl e)
  /\ (forall u,
        super_url name force = inr u ->
        exists prefix,
          Storage.url super_url settings name force = inr (prefix +:+ u)
          /\ (Storage.CDN_DOMAIN settings = None
              \/ Storage.CDN_DOMAIN settings = Some "" -> prefix = "")
          /\ (forall d, Storage.CDN_DOMAIN settings = Some d -> d <> "" ->
                        prefix = "//" +:+ d))
  /\ (forall name' force' u,
        Storage.url super_url settings name force = inr u ->
        Storage.url super_url settings name' force' = inr u ->
        super_url name force = super_url name' force').
Proof.
  assert (Hshape : forall n f,
    match super_url n f with
    | inl e => Storage.url super_url settings n f = inl e
    | inr u =>
        exists prefix,
          Storage.url super_url settings n f = inr (prefix +:+ u)
          /\ prefix = match Storage.CDN_DOMAIN settings with
                      | Some d => if String.eqb d "" then "" else "//" +:+ d
                      | None => ""
                      end
    end).
  { intros n f. unfold Storage.url.
    destruct (super_url n f) as [e|u]; [reflexivity|].
    destruct (Storage.CDN_DOMAIN settings) as [d|]; cbn [Storage.truthy].
    - destruct (String.eqb d ""); cbn [negb].
      + now exists "".
      + exists ("//" +:+ d). split; [|reflexivity].
        now rewrite append_assoc.
    - now exists "". }
  repeat split.
  - intros e He. specialize (Hshape name force). now rewrite He in Hshape.
  - intros u Hu. specialize (Hshape name force). rewrite Hu in Hshape.
    destruct Hshape as (prefix & Hurl & Hp). exists prefix.
    split; [assumption|]. split.
    + intros [Hc|Hc]; rewrite Hc in Hp; exact Hp.
    + intros d Hc Hne. rewrite Hc in Hp.
      apply String.eqb_neq in Hne. now rewrite Hne in Hp.
  - intros name' force' u H1 H2.
    pose proof (Hshape name force) as S1.
    pose proof (Hshape name' force') as S2.
    destruct (super_url name force) as [e1|u1];
      [rewrite S1 in H1; discriminate|].
    destruct (super_url name' force') as [e2|u2];
      [rewrite S2 in H2; discriminate|].
    destruct S1 as (p1 & E1 & ->). destruct S2 as (p2 & E2 & ->).
    rewrite E1 in H1. rewrite E2 in H2. injection H1 as H1. injection H2 as H2.
    rewrite <- H2 in H1. f_equal. now apply append_cancel_l in H1.
Qed.

End StorageProperties.

(** * The management script *)

(** X5.  The management script never changes a variable of the
    environment that is set, and touches no variable but its two.  Run
    as "__main__", it runs the command line, with the arguments as they
    are, in an environment where [DJANGO_SETTINGS_MODULE] and
    [DJANGO_CONFIGURATION] are set, to "ednxrichie.settings" and
    "Development" when they were not set; under another name it does
    nothing. *)
Theorem script_keeps_environment {R : Type}
    (execute_from_command_line : gmap string string -> list string -> R)
    (name : string) (environ : gmap string string) (argv : list string) :
  environ ⊆ fst (Manage.script execute_from_command_line name environ argv)
  /\ (forall key, key <> "DJANGO_SETTINGS_MODULE" ->
                  key <> "DJANGO_CONFIGURATION" ->
                  fst (Manage.script execute_from_command_line name environ argv)
                    !! key = environ !! key)
  /\ (name = "__main__" ->
      exists environ' settings_module configuration,
        Manage.script execute_from_command_line name environ argv
        = (environ', Some (execute_from_command_line environ' argv))
        /\ environ' !! "DJANGO_SETTINGS_MODULE" = Some settings_module
        /\ environ' !! "DJANGO_CONFIGURATION" = Some configuration
        /\ (environ !! "DJANGO_SETTINGS_MODULE" = None ->
            settings_module = "ednxrichie.settings")
        /\ (environ !! "DJANGO_CONFIGURATION" = None ->
            configuration = "Development"))
  /\ (name <> "__main__" ->
      Manage.script execute_from_command_line name environ argv
      = (environ, None)).
Proof.
  assert (Hsub : forall (e : gmap string string) k d,
             e ⊆ Manage.setdefault e k d).
  { intros e k d. unfold Manage.setdefault.
    destruct (e !! k) eqn:Hk; [reflexivity|]. now apply insert_subseteq. }
  assert (Hother : forall (e : gmap string string) k d key,
             key <> k -> Manage.setdefault e k d !! key = e !! key).
  { intros e k d key Hne. unfold Manage.setdefault.
    destruct (e !! k); [reflexivity|]. now apply lookup_insert_ne. }
  assert (Hset : forall (e : gmap string string) k d,
             Manage.setdefault e k d !! k
             = Some (match e !! k with Some v => v | None => d end)).
  { intros e k d. unfold Manage.setdefault.
    destruct (e !! k) eqn:Hk; [assumption|]. apply lookup_insert_eq. }
  unfold Manage.script.
  destruct (String.eqb_spec name "__main__") as [Hmain|Hother_name];
    cbn [fst]; repeat split.
  - unfold Manage.configure. etransitivity; apply Hsub.
  - intros key Hk1 Hk2. unfold Manage.configure.
    now rewrite !Hother.
  - intros _. unfold Manage.configure. do 3 eexists.
    split; [reflexivity|]. split; [|split; [apply Hset|split]].
    + rewrite Hother by discriminate. apply Hset.
    + now intros ->.
    + intros Hc. rewrite Hother by discriminate. now rewrite Hc.
  - intros Hne. contradiction.
  - reflexivity.
  - intros Hmain. contradiction.
Qed.

(** * More on the endpoint, for every library behaviour *)

Section MoreProperties.

Set Default Proof Using "Type".

Context {Store : Type}.
Variable handler : forall c : call, Store -> result (ret_type c) * Store.
Variable get_signature : string -> string -> string.
Variable upper : string -> string.
Variable Course_PAGE_template : string.
Variable settings : Settings.

Local Abbreviation endpoint :=
  (create_courses_from_request handler get_signature upper
     Course_PAGE_template settings).
Local Abbreviation run_create :=
  (create_course handler upper Course_PAGE_template).
Local Abbreviation forbidden :=
  (Build_Response (VStr "Missing authentication.") 403).
Local Abbreviation unauthorized :=
  (Build_Response (VStr "Invalid authentication.") 401).

(** X6.  The check of lines 121-124 depends on the secrets as a set: a
    header that passes with some secrets passes with any list that holds
    them all (a secret can be added without locking anyone out), and two
    lists with the same elements, in any order and number, accept the
    same headers. *)
Theorem secrets_are_a_set (other : Settings) header message :
  (incl (getattr_secrets settings) (getattr_secrets other) ->
   signature_is_valid get_signature settings header message = true ->
   signature_is_valid get_signature other header message = true)
  /\ ((forall secret, In secret (getattr_secrets settings)
                      <-> In secret (getattr_secrets other)) ->
      signature_is_valid get_signature settings header message
      = signature_is_valid get_signature other header message).
Proof.
  assert (Hincl : forall a b : Settings,
             incl (getattr_secrets a) (getattr_secrets b) ->
             signature_is_valid get_signature a header message = true ->
             signature_is_valid get_signature b header message = true).
  { intros a b Hsub. unfold signature_is_valid. rewrite !existsb_exists.
    intros (secret & Hin & H). exists secret. split; [now apply Hsub|exact H]. }
  split; [apply Hincl|]. intros Hsame.
  destruct (signature_is_valid get_signature settings header message) eqn:H1.
  - symmetry. apply (Hincl settings other); [|exact H1].
    intros x Hx. now apply Hsame.
  - destruct (signature_is_valid get_signature other header message) eqn:H2;
      [|reflexivity].
    rewrite <- H1. apply (Hincl other settings); [|exact H2].
    intros x Hx. now apply Hsame.
Qed.

Lemma decode_utf8_error body e : decode_utf8 body = inl e -> e = UnicodeDecodeError.
Proof. unfold decode_utf8. destruct (utf8_valid _); now intros [=]. Qed.

(** The three ways an unauthenticated request ends. *)
Lemma unauthenticated_run request version (w : world Store) :
  ~ authenticated get_signature settings request ->
  endpoint request version w = (inl UnicodeDecodeError, w)
  \/ endpoint request version w = (inr forbidden, w)
  \/ endpoint request version w = (inr unauthorized, w).
Proof.
  intros Hno.
  destruct (decode_utf8 (body request)) as [e|message] eqn:Hd.
  - left. pose proof (decode_utf8_error _ _ Hd) as ->.
    now apply endpoint_undecodable.
  - destruct (not_header (headers request !! "Authorization")) eqn:Hh.
    + right. left. now apply endpoint_forbidden with message.
    + destruct (signature_is_valid get_signature settings
                  (headers request !! "Authorization") message) eqn:Hv.
      * destruct Hno. now exists message.
      * right. right. now apply endpoint_unauthorized with message.
Qed.

(** X7.  A request that is not authenticated reaches no library: the
    endpoint ends in the world it started from, with the decoding error,
    the 403 response or the 401 response. *)
Theorem unauthenticated_request_reaches_no_library request version
    (w : world Store) :
  ~ authenticated get_signature settings request ->
  snd (endpoint request version w) = w
  /\ (fst (endpoint request version w) = inl UnicodeDecodeError
      \/ fst (endpoint request version w) = inr forbidden
      \/ fst (endpoint request version w) = inr unauthorized).
Proof.
  intros Hno.
  destruct (unauthenticated_run request version w Hno) as [H|[H|H]];
    rewrite H; cbn [fst snd]; auto.
Qed.

(** X8.  With no secret configured, the setting missing or the list
    empty, no request reaches the libraries: every request meets the
    decoding error, the 403 or the 401. *)
Theorem no_secret_no_access request version (w : world Store) :
  getattr_secrets settings = [] ->
  snd (endpoint request version w) = w
  /\ (fst (endpoint request version w) = inl UnicodeDecodeError
      \/ fst (endpoint request version w) = inr forbidden
      \/ fst (endpoint request version w) = inr unauthorized).
Proof.
  intros Hnil.
  assert (Hno : ~ authenticated get_signature settings request).
  { intros (message & _ & _ & Hv). unfold signature_is_valid in Hv.
    rewrite Hnil in Hv. discriminate. }
  destruct (unauthenticated_run request version w Hno) as [H|[H|H]];
    rewrite H; cbn [fst snd]; auto.
Qed.

(** The outcomes for a request whose payload has parsed: the decoding
    error, 403 and 401 with nothing done; and for an authenticated
    request, 200 with the empty body when [create_course] returns, 400
    with the serialized detail when it raises a [ValidationError], and
    any other exception of [create_course] raised as it is. *)
Lemma parsed_request_outcomes request version (w : world Store) r w' :
  endpoint request version w = (r, w') ->
  (r = inl UnicodeDecodeError /\ w' = w
   /\ decode_utf8 (body request) = inl UnicodeDecodeError)
  \/ (r = inr forbidden /\ w' = w)
  \/ (r = inr unauthorized /\ w' = w)
  \/ (authenticated get_signature settings request
      /\ ((r = inr (Build_Response (VDict []) 200)
           /\ run_create (data request) w = (inr tt, w'))
          \/ (exists detail,
                r = inr (Build_Response
                           (VDict [("error",
                                    as_serializer_error
                                      (ValidationError detail))]) 400)
                /\ run_create (data request) w
                   = (inl (ValidationError detail), w'))
          \/ (exists e,
                r = inl e /\ is_ValidationError e = false
                /\ run_create (data request) w = (inl e, w')))).
Proof.
  destruct (decode_utf8 (body request)) as [e|message] eqn:Hd.
  - rewrite (endpoint_undecodable _ _ _ _ _ _ _ _ e Hd).
    pose proof (decode_utf8_error _ _ Hd) as ->. intros [= <- <-]. auto.
  - destruct (not_header (headers request !! "Authorization")) eqn:Hh.
    + rewrite (endpoint_forbidden _ _ _ _ _ _ _ _ message Hd Hh).
      intros [= <- <-]. auto.
    + destruct (signature_is_valid get_signature settings
                  (headers request !! "Authorization") message) eqn:Hv.
      * assert (Hauth : authenticated get_signature settings request)
          by now exists message.
        rewrite (endpoint_authenticated _ _ _ _ _ _ _ _ Hauth).
        destruct (run_create (data request) w) as [[e|[]] w0].
        -- destruct e; cbn [is_ValidationError]; intros [= <- <-];
             do 3 right; (split; [assumption|]); eauto 8.
        -- intros [= <- <-]. do 3 right. auto.
      * rewrite (endpoint_unauthorized _ _ _ _ _ _ _ _ message Hd Hh Hv).
        intros [= <- <-]. auto.
Qed.

(** Reading [request.data] at line 132: a payload that has parsed makes
    the view the endpoint above. *)
Lemma lazy_parsed request payload version (w : world Store) :
  lazy_data request = inr payload ->
  Lazy.create_courses_from_request handler get_signature upper
    Course_PAGE_template settings request version w
  = endpoint (parsed request payload) version w.
Proof.
  intros Hp.
  unfold Lazy.create_courses_from_request, create_courses_from_request,
    bind, lift, try_except, ret.
  cbn [parsed body headers data]. rewrite Hp. reflexivity.
Qed.

(** A payload that does not parse: the exception of the read is raised
    inside the [try], before [create_course] is called. *)
Lemma lazy_unparsed request e version (w : world Store) :
  lazy_data request = inl e ->
  Lazy.authenticated get_signature settings request ->
  Lazy.create_courses_from_request handler get_signature upper
    Course_PAGE_template settings request version w
  = if is_ValidationError e
    then (inr (Build_Response (VDict [("error", as_serializer_error e)]) 400), w)
    else (inl e, w).
Proof.
  intros Hp (message & Hd & Hh & Hv). cbn [parsed body headers] in Hd, Hh, Hv.
  unfold Lazy.create_courses_from_request, bind, lift, try_except, ret.
  rewrite Hd. cbv beta iota zeta. rewrite Hh, Hv, Hp.
  change (negb true) with false. cbv beta iota zeta.
  destruct (is_ValidationError e); reflexivity.
Qed.

Lemma parsed_authenticated request payload :
  authenticated get_signature settings (parsed request payload)
  <-> Lazy.authenticated get_signature settings request.
Proof. unfold Lazy.authenticated, authenticated. reflexivity. Qed.

(** X9.  The outcomes of the body of the view, all of them, with
    [request.data] parsed when line 132 reads it: the decoding error,
    403 and 401 with nothing done; and for an authenticated request, what
    the [try] block gave, which is the exception of the read of
    [request.data] (nothing done) or the outcome of [create_course] on
    the parsed payload: 200 with the empty body when it returned, 400
    with the serialized detail for a [ValidationError], any other
    exception raised as it is.  A response the body returns has the
    status 200, 400, 401 or 403. *)
Theorem endpoint_outcomes request version (w : world Store) r w' :
  Lazy.create_courses_from_request handler get_signature upper
    Course_PAGE_template settings request version w = (r, w') ->
  ((r = inl UnicodeDecodeError /\ w' = w
    /\ decode_utf8 (lazy_body request) = inl UnicodeDecodeError)
   \/ (r = inr forbidden /\ w' = w)
   \/ (r = inr unauthorized /\ w' = w)
   \/ (Lazy.authenticated get_signature settings request
       /\ exists tried : result unit,
            ((exists e, lazy_data request = inl e /\ tried = inl e /\ w' = w)
             \/ (exists data, lazy_data request = inr data
                              /\ run_create data w = (tried, w')))
            /\ r = match tried with
                   | inr _ => inr (Build_Response (VDict []) 200)
                   | inl e =>
                       if is_ValidationError e
                       then inr (Build_Response
                                   (VDict [("error", as_serializer_error e)]) 400)
                       else inl e
                   end))
  /\ (forall response, r = inr response ->
      In (response_status response) [200; 400; 401; 403]%Z).
Proof.
  intros Hrun.
  assert (Hcases :
    (r = inl UnicodeDecodeError /\ w' = w
     /\ decode_utf8 (lazy_body request) = inl UnicodeDecodeError)
    \/ (r = inr forbidden /\ w' = w)
    \/ (r = inr unauthorized /\ w' = w)
    \/ (Lazy.authenticated get_signature settings request
        /\ exists tried : result unit,
             ((exists e, lazy_data request = inl e /\ tried = inl e /\ w' = w)
              \/ (exists data, lazy_data request = inr data
                               /\ run_create data w = (tried, w')))
             /\ r = match tried with
                    | inr _ => inr (Build_Response (VDict []) 200)
                    | inl e =>
                        if is_ValidationError e
                        then inr (Build_Response
                                    (VDict [("error", as_serializer_error e)]) 400)
                        else inl e
                    end)).
  { destruct (lazy_data request) as [e|payload] eqn:Hp.
    - (* the read raises: the checks of lines 114-127 are those of the
         request with any payload *)
      destruct (decode_utf8 (lazy_body request)) as [e0|message] eqn:Hd.
      + left. revert Hrun.
        unfold Lazy.create_courses_from_request, bind, lift. rewrite Hd.
        pose proof (decode_utf8_error _ _ Hd) as ->. intros [= <- <-]. auto.
      + destruct (not_header (lazy_headers request !! "Authorization")) eqn:Hh.
        * right. left. revert Hrun.
          unfold Lazy.create_courses_from_request, bind, lift, ret. rewrite Hd.
          cbv beta iota zeta. rewrite Hh. intros [= <- <-]. auto.
        * destruct (signature_is_valid get_signature settings
                      (lazy_headers request !! "Authorization") message) eqn:Hv.
          -- assert (Hauth : Lazy.authenticated get_signature settings request)
               by (exists message; cbn [parsed body headers]; auto).
             rewrite (lazy_unparsed request e version w Hp Hauth) in Hrun.
             do 3 right. split; [exact Hauth|]. exists (inl e).
             split; [left; exists e|];
               destruct (is_ValidationError e); injection Hrun as <- <-; auto.
          -- right. right. left. revert Hrun.
             unfold Lazy.create_courses_from_request, bind, lift, ret. rewrite Hd.
             cbv beta iota zeta. rewrite Hh, Hv. intros [= <- <-]. auto.
    - rewrite (lazy_parsed request payload version w Hp) in Hrun.
      destruct (parsed_request_outcomes _ _ _ _ _ Hrun)
        as [H|[H|[H|(Hauth & H)]]]; auto.
      do 3 right. split; [now apply (parsed_authenticated request payload)|].
      change (data (parsed request payload)) with payload in H.
      destruct H as [(-> & Hc)|[(detail & -> & Hc)|(e & -> & He & Hc)]].
      + exists (inr tt). split; [right; now exists payload|reflexivity].
      + exists (inl (ValidationError detail)).
        split; [right; now exists payload|reflexivity].
      + exists (inl e). split; [right; now exists payload|]. now rewrite He. }
  split; [exact Hcases|].
  intros response ->.
  destruct Hcases as [(H & _)|[(H & _)|[(H & _)|(_ & tried & _ & H)]]].
  - discriminate H.
  - injection H as ->. cbn. auto.
  - injection H as ->. cbn. auto.
  - destruct tried as [e|u].
    + destruct (is_ValidationError e); [|discriminate H].
      injection H as ->. cbn. auto.
    + injection H as ->. cbn. auto.
Qed.


Ltac answered :=
  match goal with
  | |- context [handler ?c ?s] =>
      destruct (handler c s) as [[?e|?v] ?s] eqn:?Hcall
  end.

Ltac calls n :=
  lazymatch n with
  | O => rewrite lib_run; cbn [store trace app]; answered
  | S ?m =>
      rewrite bind_lib; cbn [store trace app]; answered; cbv beta;
      [ | calls m ]
  end.

(** X10.  A run of [create_course] makes at most ten library calls and
    stops at the first one that raises: every call but the last has
    returned, and the run returns exactly when ten calls were made and
    all returned. *)
Theorem create_course_stops_at_first_failure data (s : Store) r w' :
  run_create data (start s) = (r, w') ->
  length (trace w') <= 10
  /\ (forall ev, In ev (removelast (trace w')) -> ev_raised ev = None)
  /\ (r = inr tt <->
      length (trace w') = 10
      /\ forall ev, In ev (trace w') -> ev_raised ev = None).
Proof.
  destruct (fields_or_missing data)
    as [Hmiss|(code & title & oc & H1 & H2 & H3)].
  - rewrite (create_course_missing _ _ _ _ _ Hmiss).
    intros [= <- <-]. cbn [start trace length removelast].
    split; [lia|]. split; [intros ev []|]. split; [discriminate|].
    intros [Hlen _]. discriminate Hlen.
  - rewrite (create_course_fields _ _ _ _ _ _ _ _ H1 H2 H3). unfold start.
    calls (9%nat).
    all: intros [= <- <-]; cbn [trace length removelast].
    all: split; [lia|].
    all: split;
      [intros ev Hin; cbn [In] in Hin;
       repeat (destruct Hin as [<-|Hin]; [reflexivity|]); contradiction|].
    all: split.
    all: try discriminate.
    all: try (intros [Hlen _]; discriminate Hlen).
    + intros [_ Hall].
      assert (Hx : ev_raised
                     (Event (create_permissions_for_organization v3 v0)
                        (inl e)) = None)
        by (apply Hall; cbn [In]; auto 20).
      discriminate Hx.
    + intros _. split; [reflexivity|].
      intros ev Hin; cbn [In] in Hin.
      repeat (destruct Hin as [<-|Hin]; [reflexivity|]). contradiction.
    + intros _. now destruct v8.
Qed.

End MoreProperties.

(** * Partial failure, on the reference content store *)

Section PartialFailure.

Set Default Proof Using "Type".

Variable get_signature : string -> string -> string.
Variable upper : string -> string.
Variable Course_PAGE_template : string.
Variable settings : Settings.

Local Abbreviation endpoint :=
  (create_courses_from_request Reference.handler get_signature upper
     Course_PAGE_template settings).

Ltac ref_call :=
  rewrite bind_lib;
  cbn [store trace app Reference.handler Reference.pages
       Reference.organizations Reference.courses Reference.placeholders
       Reference.plugins Reference.page_roles Reference.page_permissions
       Reference.next_id Reference.template_slots Reference.active_language
       course_extended_object].

Lemma course_with_code (cs : list Course) (code : string) :
  (exists c, In c cs /\ course_code c = code) ->
  existsb (fun c => String.eqb (course_code c) code) cs = true.
Proof.
  intros (c & Hin & Hc). apply existsb_exists. exists c.
  split; [assumption|]. now apply String.eqb_eq.
Qed.

(** A run that finds the course code taken. *)
Lemma taken_course_code_run request version
    (s : Reference.CMS) code title org_code root org organization_page :
  authenticated get_signature settings request ->
  data request !! "course_code" = Some code ->
  data request !! "course_title" = Some title ->
  data request !! "organization_code" = Some org_code ->
  List.filter (Reference.is_reverse_id "courses" true) (Reference.pages s)
  = [root] ->
  List.filter (Reference.has_code (upper org_code)) (Reference.organizations s)
  = [org] ->
  List.filter (Reference.is_page_of s (organization_id org) true)
    (Reference.pages s)
  = [organization_page] ->
  (exists c, In c (Reference.courses s) /\ course_code c = code) ->
  exists w',
    endpoint request version (start s)
    = (inl (LibraryError "IntegrityError"), w')
    /\ Reference.pages (store w')
       = Reference.pages s
         ++ [Reference.new_page s title false root None Course_PAGE_template]
    /\ Reference.courses (store w') = Reference.courses s
    /\ last_event (trace w')
       = Some (Event
                 (Course_objects_create
                    (Reference.new_page s title false root None
                       Course_PAGE_template) code)
                 (inl (LibraryError "IntegrityError"))).
Proof.
  intros Hauth H1 H2 H3 Hroot Horg Hopage Htaken.
  rewrite (endpoint_authenticated _ _ _ _ _ _ _ _ Hauth).
  rewrite (create_course_fields _ _ _ _ _ _ _ _ H1 H2 H3). unfold start.
  ref_call. rewrite Hroot. cbn [Reference.objects_get].
  ref_call. rewrite Horg. cbn [Reference.objects_get].
  ref_call. rewrite Hopage. cbn [Reference.objects_get].
  ref_call. ref_call. rewrite (course_with_code _ _ Htaken).
  cbn [is_ValidationError].
  eexists. split; [reflexivity|]. cbn [store trace Reference.pages Reference.courses].
  repeat split.
Qed.


(** X11.  On the reference store, for an authenticated request whose
    lookups succeed and whose course code is taken: the endpoint raises
    the error of [Course.objects.create], which is the last call made,
    and answers no 400; the store has no new course, and keeps the page
    that step 4 created (nothing undoes it). *)
Theorem taken_course_code_leaves_orphan_page request version
    (s : Reference.CMS) code title org_code root org organization_page :
  authenticated get_signature settings request ->
  data request !! "course_code" = Some code ->
  data request !! "course_title" = Some title ->
  data request !! "organization_code" = Some org_code ->
  List.filter (Reference.is_reverse_id "courses" true) (Reference.pages s)
  = [root] ->
  List.filter (Reference.has_code (upper org_code)) (Reference.organizations s)
  = [org] ->
  List.filter (Reference.is_page_of s (organization_id org) true)
    (Reference.pages s)
  = [organization_page] ->
  (exists c, In c (Reference.courses s) /\ course_code c = code) ->
  exists w',
    endpoint request version (start s)
    = (inl (LibraryError "IntegrityError"), w')
    /\ Reference.pages (store w')
       = Reference.pages s
         ++ [Reference.new_page s title false root None Course_PAGE_template]
    /\ Reference.courses (store w') = Reference.courses s
    /\ last_event (trace w')
       = Some (Event
                 (Course_objects_create
                    (Reference.new_page s title false root None
                       Course_PAGE_template) code)
                 (inl (LibraryError "IntegrityError"))).
Proof.
  intros Hauth H1 H2 H3 Hroot Horg Hopage Htaken.
  destruct (taken_course_code_run request version s code title org_code
              root org organization_page Hauth H1 H2 H3 Hroot Horg Hopage
              Htaken)
    as (w' & Hrun & Hpages & Hcourses & Hlast).
  exists w'. repeat split; assumption.
Qed.

Lemma no_page_of_organization (s : Reference.CMS) organization draft
    (page : Page) :
  (forall o, In o (Reference.organizations s) ->
             organization_extended_object o <> page_id page) ->
  Reference.is_page_of s organization draft page = false.
Proof.
  intros Hfresh. unfold Reference.is_page_of.
  apply andb_false_iff. left.
  induction (Reference.organizations s) as [|o orgs IH]; [reflexivity|].
  cbn [existsb]. apply orb_false_iff. split.
  - apply andb_false_iff. right. apply Nat.eqb_neq. apply Hfresh. now left.
  - apply IH. intros o' Hin. apply Hfresh. now right.
Qed.

(** A request that goes through, and the rows its run leaves. *)
Lemma successful_run request version (s : Reference.CMS)
    code title org_code root org organization_page :
  authenticated get_signature settings request ->
  data request !! "course_code" = Some code ->
  data request !! "course_title" = Some title ->
  data request !! "organization_code" = Some org_code ->
  List.filter (Reference.is_reverse_id "courses" true) (Reference.pages s)
  = [root] ->
  List.filter (Reference.has_code (upper org_code)) (Reference.organizations s)
  = [org] ->
  List.filter (Reference.is_page_of s (organization_id org) true)
    (Reference.pages s)
  = [organization_page] ->
  In "course_organizations"
     (Reference.slots_of (Reference.template_slots s) Course_PAGE_template) ->
  (forall ph, In ph (Reference.placeholders s) ->
              placeholder_page ph <> Reference.next_id s) ->
  (forall c, In c (Reference.courses s) -> course_code c <> code) ->
  exists w' id,
    endpoint request version (start s)
    = (inr (Build_Response (VDict []) 200), w')
    /\ Reference.pages (store w')
       = Reference.pages s
         ++ [Reference.new_page s title false root None Course_PAGE_template]
    /\ Reference.organizations (store w') = Reference.organizations s
    /\ Reference.courses (store w')
       = Reference.courses s
         ++ [{| course_id := id;
                course_code := code;
                course_extended_object :=
                  Reference.new_page s title false root None
                    Course_PAGE_template |}].
Proof.
  intros Hauth H1 H2 H3 Hroot Horg Hopage Hslot Hfresh Hcode.
  rewrite (endpoint_authenticated _ _ _ _ _ _ _ _ Hauth).
  rewrite (create_course_fields _ _ _ _ _ _ _ _ H1 H2 H3). unfold start.
  ref_call. rewrite Hroot. cbn [Reference.objects_get].
  ref_call. rewrite Horg. cbn [Reference.objects_get].
  ref_call. rewrite Hopage. cbn [Reference.objects_get].
  ref_call. ref_call. rewrite (no_course_with_code _ _ Hcode).
  ref_call. ref_call.
  set (page := Reference.new_page s title false root None Course_PAGE_template).
  rewrite List.filter_app.
  rewrite (filter_other_page page "course_organizations" _ Hfresh).
  destruct (filter_new_placeholder page "course_organizations" _
              (slots_of_NoDup _ _) Hslot (S (Reference.next_id s)))
    as [ph_id Hph].
  unfold Reference.new_placeholders at 1. cbn zeta.
  change (page_id page) with (Reference.next_id s) in Hph.
  rewrite Hph. cbn [app Reference.objects_get].
  ref_call. ref_call.
  rewrite lib_run. cbn [store trace app Reference.handler].
  cbn [Reference.pages Reference.organizations Reference.courses].
  eexists. eexists. split; [reflexivity|]. cbn [store].
  repeat split.
Qed.

(** X12.  On the reference store, a request that creates its course
    cannot do it twice: sent again to the store it left, it raises the
    error of [Course.objects.create]; the store still has the one new
    course, and two new pages. *)
Theorem second_identical_request_fails request version (s : Reference.CMS)
    code title org_code root org organization_page :
  authenticated get_signature settings request ->
  data request !! "course_code" = Some code ->
  data request !! "course_title" = Some title ->
  data request !! "organization_code" = Some org_code ->
  List.filter (Reference.is_reverse_id "courses" true) (Reference.pages s)
  = [root] ->
  List.filter (Reference.has_code (upper org_code)) (Reference.organizations s)
  = [org] ->
  List.filter (Reference.is_page_of s (organization_id org) true)
    (Reference.pages s)
  = [organization_page] ->
  In "course_organizations"
     (Reference.slots_of (Reference.template_slots s) Course_PAGE_template) ->
  (forall ph, In ph (Reference.placeholders s) ->
              placeholder_page ph <> Reference.next_id s) ->
  (forall o, In o (Reference.organizations s) ->
             organization_extended_object o <> Reference.next_id s) ->
  (forall c, In c (Reference.courses s) -> course_code c <> code) ->
  exists w1 w2,
    endpoint request version (start s)
    = (inr (Build_Response (VDict []) 200), w1)
    /\ endpoint request version (start (store w1))
       = (inl (LibraryError "IntegrityError"), w2)
    /\ length (Reference.courses (store w1))
       = S (length (Reference.courses s))
    /\ Reference.courses (store w2) = Reference.courses (store w1)
    /\ length (Reference.pages (store w2))
       = S (S (length (Reference.pages s))).
Proof.
  intros Hauth H1 H2 H3 Hroot Horg Hopage Hslot Hfresh Hfresh_org Hcode.
  destruct (successful_run request version s code title org_code root org
              organization_page Hauth H1 H2 H3 Hroot Horg Hopage Hslot
              Hfresh Hcode)
    as (w1 & id & Hrun1 & Hpages & Horgs & Hcourses).
  set (page := Reference.new_page s title false root None Course_PAGE_template)
    in *.
  destruct (taken_course_code_run request version (store w1)
              code title org_code root org organization_page Hauth H1 H2 H3)
    as (w2 & Hrun2 & Hpages2 & Hcourses2 & _).
  - rewrite Hpages, List.filter_app, Hroot. reflexivity.
  - now rewrite Horgs.
  - rewrite Hpages, List.filter_app.
    rewrite (List.filter_ext _ (Reference.is_page_of s (organization_id org) true)).
    + rewrite Hopage. cbn [List.filter].
      replace (Reference.is_page_of (store w1) (organization_id org) true page)
        with (Reference.is_page_of s (organization_id org) true page)
        by (unfold Reference.is_page_of; now rewrite Horgs).
      now rewrite (no_page_of_organization s _ _ page Hfresh_org).
    + intros p. unfold Reference.is_page_of. now rewrite Horgs.
  - exists {| course_id := id; course_code := code;
              course_extended_object := page |}.
    split; [|reflexivity]. rewrite Hcourses.
    apply in_or_app. right. now left.
  - exists w1, w2. split; [assumption|]. split; [assumption|].
    split; [rewrite Hcourses, length_app; cbn [length]; lia|].
    split; [assumption|].
    rewrite Hpages2, Hpages, !length_app. cbn [length]. lia.
Qed.

End PartialFailure.

(** * The properties above on sample data *)

(** A webpack chunk is ignored. *)
Lemma ignored_static_files_witness :
  Re.re_match Storage.STATIC_POSTPROCESS_IGNORE_REGEX
    "richie/js/12.3f9a.index.js" = true.
Proof.
  apply (proj2 (ignored_static_files "richie/js/12.3f9a.index.js")).
  exists "12", "3f9a", "". repeat split. now left.
Defined.

(** Under [search], anything may stand before the name of the route. *)
Lemma route_pattern_witness :
  Re.re_search Urls.unesco_course_sync "api/v1.0/not-the-unesco-course-sync/"
  = true.
Proof.
  apply (proj2 (proj1 (route_pattern "api/v1.0/not-the-unesco-course-sync/"))).
  exists "api/v1.0/not-the-", "/", "". repeat split; now left + right.
Defined.

(** The chunk is left out; the style sheet and the entry point go on. *)
Lemma post_process_filters_witness :
  Storage.post_process Samples.listing Samples.static_paths false tt
  = inr ["css/main.css"; "richie/js/index.js"].
Proof.
  rewrite (post_process_filters Samples.listing Samples.static_paths false tt).
  - reflexivity.
  - repeat (apply List.NoDup_cons;
            [cbn [map fst In]; intros H;
             repeat (destruct H as [H|H]; [discriminate H|]); exact H|]).
    apply List.NoDup_nil.
Defined.

(** With a CDN domain, the url is the parent's behind "//" and the domain. *)
Lemma url_prepends_cdn_witness :
  Storage.url Samples.static_url Samples.cdn_settings "css/main.css" false
  = inr "//cdn.example.com/static/css/main.css".
Proof.
  destruct (proj1 (proj2 (url_prepends_cdn Samples.static_url
                            Samples.cdn_settings "css/main.css" false))
              "/static/css/main.css" eq_refl)
    as (prefix & Hurl & _ & Hprefix).
  rewrite Hurl, (Hprefix "cdn.example.com" eq_refl); [reflexivity|discriminate].
Defined.

(** The configuration that was set is kept. *)
Lemma script_keeps_environment_witness :
  fst (Manage.script Samples.report "__main__" Samples.production
         ["manage.py"; "migrate"])
    !! "DJANGO_CONFIGURATION" = Some "Production".
Proof.
  apply (lookup_weaken Samples.production _ "DJANGO_CONFIGURATION"
           "Production").
  - reflexivity.
  - apply (proj1 (script_keeps_environment Samples.report "__main__"
                    Samples.production ["manage.py"; "migrate"])).
Defined.

(** A header signed with the old secret still passes once the new secret
    is added. *)
Lemma secrets_are_a_set_witness :
  signature_is_valid Reference.get_signature Reference.secrets
    (Some (Reference.get_signature "{}" "old-secret")) "{}" = true.
Proof.
  apply (proj1 (secrets_are_a_set Reference.get_signature
                  Samples.old_secret_only Reference.secrets
                  (Some (Reference.get_signature "{}" "old-secret")) "{}")).
  - intros secret [<-|[]]. now left.
  - reflexivity.
Defined.

(** A forged header leaves the site as it was. *)
Lemma unauthenticated_request_reaches_no_library_witness :
  snd (Reference.endpoint Reference.secrets Reference.forged_request
         (start Reference.site))
  = start Reference.site
  /\ (fst (Reference.endpoint Reference.secrets Reference.forged_request
             (start Reference.site)) = inl UnicodeDecodeError
      \/ fst (Reference.endpoint Reference.secrets Reference.forged_request
                (start Reference.site))
         = inr (Build_Response (VStr "Missing authentication.") 403)
      \/ fst (Reference.endpoint Reference.secrets Reference.forged_request
                (start Reference.site))
         = inr (Build_Response (VStr "Invalid authentication.") 401)).
Proof.
  apply (unauthenticated_request_reaches_no_library Reference.handler
           Reference.get_signature Reference.upper
           Reference.Course_PAGE_template Reference.secrets
           Reference.forged_request "1.0" (start Reference.site)).
  intros (message & Hd & _ & Hv). vm_compute in Hd. injection Hd as <-.
  vm_compute in Hv. discriminate Hv.
Defined.

(** Without configured secrets even a signed request gets nowhere. *)
Lemma no_secret_no_access_witness :
  snd (Reference.endpoint Samples.unconfigured Reference.signed_request
         (start Reference.site))
  = start Reference.site
  /\ (fst (Reference.endpoint Samples.unconfigured Reference.signed_request
             (start Reference.site)) = inl UnicodeDecodeError
      \/ fst (Reference.endpoint Samples.unconfigured Reference.signed_request
                (start Reference.site))
         = inr (Build_Response (VStr "Missing authentication.") 403)
      \/ fst (Reference.endpoint Samples.unconfigured Reference.signed_request
                (start Reference.site))
         = inr (Build_Response (VStr "Invalid authentication.") 401)).
Proof.
  apply (no_secret_no_access Reference.handler Reference.get_signature
           Reference.upper Reference.Course_PAGE_template
           Samples.unconfigured Reference.signed_request "1.0"
           (start Reference.site)).
  reflexivity.
Defined.

(** A signed request whose body does not parse: the exception of the
    read of [request.data], with no library called. *)
Lemma endpoint_outcomes_witness :
  let request := Lazy.malformed_request in
  let w := start Reference.site in
  let r := fst (Lazy.endpoint Reference.secrets request w) in
  let w' := snd (Lazy.endpoint Reference.secrets request w) in
  ((r = inl UnicodeDecodeError /\ w' = w
    /\ decode_utf8 (lazy_body request) = inl UnicodeDecodeError)
   \/ (r = inr (Build_Response (VStr "Missing authentication.") 403) /\ w' = w)
   \/ (r = inr (Build_Response (VStr "Invalid authentication.") 401) /\ w' = w)
   \/ (Lazy.authenticated Reference.get_signature Reference.secrets request
       /\ exists tried : result unit,
            ((exists e, lazy_data request = inl e /\ tried = inl e /\ w' = w)
             \/ (exists data, lazy_data request = inr data
                              /\ Reference.run_create_course data w = (tried, w')))
            /\ r = match tried with
                   | inr _ => inr (Build_Response (VDict []) 200)
                   | inl e =>
                       if is_ValidationError e
                       then inr (Build_Response
                                   (VDict [("error", as_serializer_error e)]) 400)
                       else inl e
                   end))
  /\ (forall response, r = inr response ->
      In (response_status response) [200; 400; 401; 403]%Z).
Proof.
  apply (endpoint_outcomes Reference.handler Reference.get_signature
           Reference.upper Reference.Course_PAGE_template Reference.secrets
           Lazy.malformed_request "1.0" (start Reference.site)).
  apply surjective_pairing.
Defined.

(** The same run, evaluated: [ParseError] is raised as it is, since line
    135 catches [ValidationError] only, and the store is as it was. *)
Lemma malformed_request_raises :
  Lazy.endpoint Reference.secrets Lazy.malformed_request (start Reference.site)
  = (inl (LibraryError "ParseError"), start Reference.site).
Proof. vm_compute. reflexivity. Qed.

(** The unknown organization: two calls, the second one raised. *)
Lemma create_course_stops_at_first_failure_witness :
  let run := Reference.run_create_course
               Reference.payload_unknown_organization
               (start Reference.site) in
  length (trace (snd run)) <= 10
  /\ (forall ev, In ev (removelast (trace (snd run))) -> ev_raised ev = None)
  /\ (fst run = inr tt <->
      length (trace (snd run)) = 10
      /\ forall ev, In ev (trace (snd run)) -> ev_raised ev = None).
Proof.
  apply (create_course_stops_at_first_failure Reference.handler
           Reference.upper Reference.Course_PAGE_template
           Reference.payload_unknown_organization Reference.site).
  apply surjective_pairing.
Defined.

(** The code cs101 is taken: the endpoint raises, and the new page stays. *)
Lemma taken_course_code_leaves_orphan_page_witness :
  exists w',
    Reference.endpoint Reference.secrets Reference.signed_request
      (start Samples.taken_site)
    = (inl (LibraryError "IntegrityError"), w')
    /\ Reference.pages (store w')
       = Reference.pages Samples.taken_site
         ++ [Reference.new_page Samples.taken_site
               "Introduction to Computer Science" false
               Reference.courses_root None Reference.Course_PAGE_template]
    /\ Reference.courses (store w') = Reference.courses Samples.taken_site
    /\ last_event (trace w')
       = Some (Event
                 (Course_objects_create
                    (Reference.new_page Samples.taken_site
                       "Introduction to Computer Science" false
                       Reference.courses_root None
                       Reference.Course_PAGE_template) "cs101")
                 (inl (LibraryError "IntegrityError"))).
Proof.
  apply (taken_course_code_leaves_orphan_page Reference.get_signature
           Reference.upper Reference.Course_PAGE_template Reference.secrets
           Reference.signed_request "1.0" Samples.taken_site
           "cs101" "Introduction to Computer Science" "org123"
           Reference.courses_root Reference.org123 Reference.org_page).
  - apply signed_is_authenticated.
  - reflexivity.
  - reflexivity.
  - reflexivity.
  - reflexivity.
  - reflexivity.
  - reflexivity.
  - exists {| course_id := 5; course_code := "cs101";
              course_extended_object := Reference.org_page |}.
    split; [left; reflexivity | reflexivity].
Defined.

(** The signed request on the small site, twice. *)
Lemma second_identical_request_fails_witness :
  exists w1 w2,
    Reference.endpoint Reference.secrets Reference.signed_request
      (start Reference.site)
    = (inr (Build_Response (VDict []) 200), w1)
    /\ Reference.endpoint Reference.secrets Reference.signed_request
         (start (store w1))
       = (inl (LibraryError "IntegrityError"), w2)
    /\ length (Reference.courses (store w1))
       = S (length (Reference.courses Reference.site))
    /\ Reference.courses (store w2) = Reference.courses (store w1)
    /\ length (Reference.pages (store w2))
       = S (S (length (Reference.pages Reference.site))).
Proof.
  apply (second_identical_request_fails Reference.get_signature
           Reference.upper Reference.Course_PAGE_template Reference.secrets
           Reference.signed_request "1.0" Reference.site
           "cs101" "Introduction to Computer Science" "org123"
           Reference.courses_root Reference.org123 Reference.org_page).
  - apply signed_is_authenticated.
  - reflexivity.
  - reflexivity.
  - reflexivity.
  - reflexivity.
  - reflexivity.
  - reflexivity.
  - right. left. reflexivity.
  - intros ph [].
  - intros o [<-|[]]. discriminate.
  - intros c [].
Defined.
